(** * Resume screening pipeline: extraction and scoring core

    A shallow embedding of [cv_triage_pipeline.py]: the keyword matcher, the
    contact and section extractors, the record builder, the survey merge and
    the scoring and classification rules, with the properties the
    specification states about them.

    Modelling conventions.
    - Python [str] values are [string]s over the ASCII range; [lower] is
      Python's [str.lower] on that range and [is_space] is the character
      class that [str.strip], [str.split] and the regular expression
      [\s] share there (codes 9-13, 28-31 and 32).
    - Python [int] values are [Z].
    - The calls to [re.search] and [re.split] are modelled by a small
      backtracking matcher (ordered alternation, greedy counted repetition of
      a character class, word boundaries), which is the fragment the three
      patterns of the source are written in.
    - A pandas cell is a [cell]: the column is not in the row, the value is
      missing (NaN), or it is a value, given by its [str()] rendering.
    - A call that can end in an exception nobody catches gives an
      [outcome]: the value it returns, or [RaisesError]. *)

From Stdlib Require Import Bool Arith ZArith List Ascii String Lia.
Import ListNotations.

Local Open Scope string_scope.

(* ================================================================== *)
(** ** Characters and strings as Python has them *)

Module PyStr.

Definition code (c : ascii) : nat := nat_of_ascii c.

Definition in_range (lo hi : nat) (c : ascii) : bool :=
  (lo <=? code c)%nat && (code c <=? hi)%nat.

Definition is_upper (c : ascii) : bool := in_range 65 90 c.
Definition is_lower (c : ascii) : bool := in_range 97 122 c.
Definition is_digit (c : ascii) : bool := in_range 48 57 c.
Definition is_alpha (c : ascii) : bool := is_upper c || is_lower c.

(** [str.isspace] on the ASCII range; also the class [\s]. *)
Definition is_space (c : ascii) : bool :=
  in_range 9 13 c || in_range 28 32 c.

(** The class [\w] on the ASCII range. *)
Definition is_word (c : ascii) : bool :=
  is_alpha c || is_digit c || Ascii.eqb c "_".

Definition lower_char (c : ascii) : ascii :=
  if is_upper c then ascii_of_nat (code c + 32) else c.

(** [s.lower()] *)
Fixpoint lower (s : string) : string :=
  match s with
  | EmptyString => EmptyString
  | String c s' => String (lower_char c) (lower s')
  end.

(** [s[:n]] *)
Fixpoint take (n : nat) (s : string) : string :=
  match n, s with
  | S n', String c s' => String c (take n' s')
  | _, _ => EmptyString
  end.

(** [s.startswith(p)] *)
Fixpoint startswith (p s : string) : bool :=
  match p, s with
  | EmptyString, _ => true
  | String a p', String b s' => Ascii.eqb a b && startswith p' s'
  | String _ _, EmptyString => false
  end.

(** [p in s] for strings: [p] occurs in [s] as a contiguous run. *)
Fixpoint contains (p s : string) : bool :=
  startswith p s ||
  match s with
  | EmptyString => false
  | String _ s' => contains p s'
  end.

(** [s.lstrip()] *)
Fixpoint lstrip (s : string) : string :=
  match s with
  | String c s' => if is_space c then lstrip s' else s
  | EmptyString => EmptyString
  end.

(** [s.rstrip()] *)
Fixpoint rstrip (s : string) : string :=
  match s with
  | EmptyString => EmptyString
  | String c s' =>
      match rstrip s' with
      | EmptyString => if is_space c then EmptyString else String c EmptyString
      | r => String c r
      end
  end.

(** [s.strip()] *)
Definition strip (s : string) : string := rstrip (lstrip s).

(** [s.split(sep)] for a one-character separator: never the empty list. *)
Fixpoint split_char (sep : ascii) (s : string) : list string :=
  match s with
  | EmptyString => [EmptyString]
  | String c s' =>
      if Ascii.eqb c sep then EmptyString :: split_char sep s'
      else match split_char sep s' with
           | w :: ws => String c w :: ws
           | [] => [String c EmptyString]
           end
  end.

(** [s.split()]: the maximal runs of non-space characters.  [cur] is the
    run being read, if any. *)
Fixpoint split_ws_go (cur : option string) (s : string) : list string :=
  match s with
  | EmptyString => match cur with Some w => [w] | None => [] end
  | String c s' =>
      if is_space c then
        match cur with
        | Some w => w :: split_ws_go None s'
        | None => split_ws_go None s'
        end
      else
        match cur with
        | Some w => split_ws_go (Some (w ++ String c EmptyString)) s'
        | None => split_ws_go (Some (String c EmptyString)) s'
        end
  end.

Definition split_ws (s : string) : list string := split_ws_go None s.

(** [sep.join(parts)] *)
Fixpoint join (sep : string) (parts : list string) : string :=
  match parts with
  | [] => EmptyString
  | [p] => p
  | p :: ps => p ++ sep ++ join sep ps
  end.

(** [s.endswith(p)] *)
Fixpoint endswith (p s : string) : bool :=
  String.eqb p s ||
  match s with
  | EmptyString => false
  | String _ s' => endswith p s'
  end.

(** [s[-1]] for a list, [d] when the list is empty. *)
Definition last_of (l : list string) (d : string) : string := List.last l d.

(** Truthiness of a [str]: [not s] is [is_empty s]. *)
Definition is_empty (s : string) : bool :=
  match s with EmptyString => true | String _ _ => false end.

(** Every character of [s] is white space. *)
Fixpoint all_space (s : string) : bool :=
  match s with
  | EmptyString => true
  | String c s' => is_space c && all_space s'
  end.

End PyStr.

(* ================================================================== *)
(** ** The fragment of Python's [re] the source uses *)

Module Re.
Import PyStr.

(** Patterns.  [Rep p lo hi] is the greedy repetition [p{lo,hi}] of a
    one-character class ([hi = None] for an open upper bound), which is the
    only thing the source's patterns repeat; [WordB] is [\b]. *)
Inductive regex : Type :=
| Eps : regex
| Chr (p : ascii -> bool) : regex
| Seq (r1 r2 : regex) : regex
| Alt (r1 r2 : regex) : regex
| Rep (p : ascii -> bool) (lo : nat) (hi : option nat) : regex
| WordB : regex.

(** A continuation receives the character before the current position, the
    text still to read and the number of characters matched so far. *)
Definition cont : Type := option ascii -> string -> nat -> option nat.

Definition first_some (a : option nat) (b : option nat) : option nat :=
  match a with Some x => Some x | None => b end.

Definition word_before (prev : option ascii) : bool :=
  match prev with Some c => is_word c | None => false end.

Definition word_after (s : string) : bool :=
  match s with String c _ => is_word c | EmptyString => false end.

(** Greedy counted repetition with backtracking: one more character is
    tried first, stopping here is the fallback. *)
Fixpoint rep_greedy (p : ascii -> bool) (lo : nat) (hi : option nat)
  (prev : option ascii) (s : string) (n : nat) (k : cont) : option nat :=
  let stop := match lo with O => k prev s n | S _ => None end in
  match hi with
  | Some O => stop
  | _ =>
      match s with
      | String c s' =>
          if p c then
            first_some
              (rep_greedy p (Nat.pred lo) (option_map Nat.pred hi)
                 (Some c) s' (S n) k)
              stop
          else stop
      | EmptyString => stop
      end
  end.

(** The backtracking matcher, anchored at the current position. *)
Fixpoint run (r : regex) (prev : option ascii) (s : string) (n : nat)
  (k : cont) : option nat :=
  match r with
  | Eps => k prev s n
  | Chr p =>
      match s with
      | String c s' => if p c then k (Some c) s' (S n) else None
      | EmptyString => None
      end
  | Seq r1 r2 => run r1 prev s n (fun prev' s' n' => run r2 prev' s' n' k)
  | Alt r1 r2 => first_some (run r1 prev s n k) (run r2 prev s n k)
  | Rep p lo hi => rep_greedy p lo hi prev s n k
  | WordB =>
      if xorb (word_before prev) (word_after s) then k prev s n else None
  end.

(** Length of the match of [r] that starts here, if there is one. *)
Definition match_here (r : regex) (prev : option ascii) (s : string)
  : option nat :=
  run r prev s 0 (fun _ _ n => Some n).

(** [re.search(r, s)]: the text of the leftmost match ([group(0)]). *)
Fixpoint search_from (r : regex) (prev : option ascii) (s : string)
  : option string :=
  match match_here r prev s with
  | Some n => Some (take n s)
  | None =>
      match s with
      | String c s' => search_from r (Some c) s'
      | EmptyString => None
      end
  end.

Definition search (r : regex) (s : string) : option string :=
  search_from r None s.

(** [re.split(r, s)] for a pattern without groups that matches no empty
    text.  [skip] counts the characters of the current match still to be
    dropped; [seg] is the segment being read. *)
Fixpoint split_from (r : regex) (prev : option ascii) (s : string)
  (skip : nat) (seg : string) : list string :=
  match s with
  | EmptyString => [seg]
  | String c s' =>
      match skip with
      | S k => split_from r (Some c) s' k seg
      | O =>
          match match_here r prev s with
          | Some (S n) => seg :: split_from r (Some c) s' n EmptyString
          | _ => split_from r (Some c) s' 0 (seg ++ String c EmptyString)
          end
      end
  end.

Definition split (r : regex) (s : string) : list string :=
  split_from r None s 0 EmptyString.

(** Pattern builders. *)
Definition lit (c : ascii) : regex := Chr (Ascii.eqb c).

(** A literal under [re.IGNORECASE]. *)
Definition lit_i (c : ascii) : regex :=
  Chr (fun x => Ascii.eqb (lower_char x) (lower_char c)).

Fixpoint word_i (w : string) : regex :=
  match w with
  | EmptyString => Eps
  | String c w' => Seq (lit_i c) (word_i w')
  end.

Fixpoint alts (rs : list regex) : regex :=
  match rs with
  | [] => Chr (fun _ => false)
  | [r] => r
  | r :: rs' => Alt r (alts rs')
  end.

Fixpoint seqs (rs : list regex) : regex :=
  match rs with
  | [] => Eps
  | [r] => r
  | r :: rs' => Seq r (seqs rs')
  end.

Definition opt (r : regex) : regex := Alt r Eps.

Definition one_of (cs : string) (c : ascii) : bool :=
  contains (String c EmptyString) cs.

(** Every character of [w] is in the class [p]. *)
Fixpoint all_in (p : ascii -> bool) (w : string) : bool :=
  match w with
  | EmptyString => true
  | String c w' => p c && all_in p w'
  end.

(** The character before the position reached after reading [w]. *)
Fixpoint last_char (prev : option ascii) (w : string) : option ascii :=
  match w with
  | EmptyString => prev
  | String c w' => last_char (Some c) w'
  end.

(** What a pattern stands for: [lang r prev w rest] says that [w], read
    after the character [prev] and followed by [rest], is a match of
    [r]. *)
Fixpoint lang (r : regex) (prev : option ascii) (w rest : string) : Prop :=
  match r with
  | Eps => w = EmptyString
  | Chr p => exists c, w = String c EmptyString /\ p c = true
  | Seq r1 r2 =>
      exists w1 w2,
        w = w1 ++ w2
        /\ lang r1 prev w1 (w2 ++ rest)
        /\ lang r2 (last_char prev w1) w2 rest
  | Alt r1 r2 => lang r1 prev w rest \/ lang r2 prev w rest
  | Rep p lo hi =>
      all_in p w = true
      /\ lo <= String.length w
      /\ match hi with
         | Some h => String.length w <= h
         | None => True
         end
  | WordB =>
      w = EmptyString /\ xorb (word_before prev) (word_after rest) = true
  end.

End Re.

(* ================================================================== *)
(** ** The pipeline, function by function *)

Module Pipeline.
Import PyStr Re.

Definition INPUT_DIR : string := "./input_cv/".

Definition newline : ascii := "010"%char.

(** *** Keyword set *)

Definition default_keywords : list string :=
  [ "attendant"; "cook"; "fast food"; "mcdonald's"; "burger king";
    "customer service"; "food handling"; "cashier"; "restaurant" ].

(** [load_keywords]: the keywords file is given by its lines, [None] when
    the file does not exist. *)
Definition load_keywords (keywords_file : option (list string))
  : list string :=
  match keywords_file with
  | Some lines =>
      map (fun line => lower (strip line))
          (filter (fun line => negb (is_empty (strip line))) lines)
  | None => default_keywords
  end.

(** *** Text extraction (the PyMuPDF collaborator) *)

(** What [fitz.open] and [page.get_text] do for a path: the texts of the
    pages, or an exception. *)
Inductive fitz_outcome : Type :=
| Pages (texts : list string)
| Raises.

Definition pdf_store : Type := string -> fitz_outcome.

Definition extract_text_from_pdf (fs : pdf_store) (pdf_path : string)
  : string :=
  match fs pdf_path with
  | Pages texts => fold_left (fun text page => text ++ page) texts ""
  | Raises => ""
  end.

(** *** Contact extraction *)

Definition email_local (c : ascii) : bool :=
  is_alpha c || is_digit c || one_of "._%+-" c.

Definition email_domain (c : ascii) : bool :=
  is_alpha c || is_digit c || one_of ".-" c.

(** The class [[A-Z|a-z]]: the bar is a member. *)
Definition email_tld (c : ascii) : bool := is_alpha c || one_of "|" c.

Definition phone_sep (c : ascii) : bool := one_of "-." c || is_space c.

(** [\b[A-Za-z0-9._%+-]+@[A-Za-z0-9.-]+\.[A-Z|a-z]{2,}\b] *)
Definition email_pattern : regex :=
  seqs [ WordB; Rep email_local 1 None; lit "@"; Rep email_domain 1 None;
         lit "."; Rep email_tld 2 None; WordB ].

(** [\b(?:\+\d{1,3}[-.\s]?)?\(?\d{3}\)?[-.\s]?\d{3}[-.\s]?\d{4}\b] *)
Definition phone_pattern : regex :=
  seqs [ WordB;
         opt (seqs [ lit "+"; Rep is_digit 1 (Some 3);
                     Rep phone_sep 0 (Some 1) ]);
         Rep (Ascii.eqb "(") 0 (Some 1); Rep is_digit 3 (Some 3);
         Rep (Ascii.eqb ")") 0 (Some 1); Rep phone_sep 0 (Some 1);
         Rep is_digit 3 (Some 3); Rep phone_sep 0 (Some 1);
         Rep is_digit 4 (Some 4); WordB ].

Definition found (m : option string) : bool :=
  match m with Some _ => true | None => false end.

Definition group0_or_empty (m : option string) : string :=
  match m with Some g => g | None => "" end.

(** The loop over the first lines: the first line that is not blank and
    holds neither an email address nor a phone number gives the name. *)
Fixpoint name_loop (lines : list string) : string :=
  match lines with
  | [] => ""
  | line :: rest =>
      if negb (is_empty (strip line))
         && negb (found (search email_pattern line))
         && negb (found (search phone_pattern line))
      then join " " (firstn 3 (split_ws (strip line)))
      else name_loop rest
  end.

Definition extract_contact_info (text : string)
  : string * string * string :=
  let email := group0_or_empty (search email_pattern text) in
  let phone := group0_or_empty (search phone_pattern text) in
  let lines := split_char newline (strip text) in
  let name := name_loop (firstn 5 lines) in
  (name, email, phone).

(** *** Section extraction *)

Definition section_headers : list string :=
  [ "EXPERIENCE"; "SKILLS"; "EDUCATION"; "WORK HISTORY"; "EMPLOYMENT";
    "PROFESSIONAL EXPERIENCE" ].

(** [\n\s*(?:EXPERIENCE|...|PROFESSIONAL EXPERIENCE)(?:\s*|:)] under
    [re.IGNORECASE]. *)
Definition section_pattern : regex :=
  seqs [ lit newline; Rep is_space 0 None;
         alts (map word_i section_headers);
         Alt (Rep is_space 0 None) (lit ":") ].

(** [SKILLS|QUALIFICATIONS] under [re.IGNORECASE]. *)
Definition skills_token_pattern : regex :=
  Alt (word_i "SKILLS") (word_i "QUALIFICATIONS").

Definition has_skills_token (segment : string) : bool :=
  found (search skills_token_pattern segment).

(** The [for i, section in enumerate(sections)] loop with its [break];
    [rest] is what is left to iterate and [i] the index of its head. *)
Fixpoint skills_loop (sections : list string) (i : nat)
  (rest : list string) : string :=
  match rest with
  | [] => ""
  | section :: rest' =>
      if (0 <? i)%nat && has_skills_token (nth (i - 1) sections "")
      then take 500 (strip section)
      else skills_loop sections (S i) rest'
  end.

Definition extract_experience_and_skills (text : string)
  (keywords : list string) : string * string :=
  let sections := split section_pattern text in
  let experience :=
    if (1 <? List.length sections)%nat
    then take 500 (strip (nth 1 sections ""))
    else "" in
  let skills_section := skills_loop sections 0 sections in
  let skills_section :=
    if is_empty skills_section && (2 <? List.length sections)%nat
    then take 500 (strip (last_of sections ""))
    else skills_section in
  (experience, skills_section).

(** *** Keyword matching *)

(** The loop of [count_relevant_keywords] with its two accumulators. *)
Fixpoint keyword_loop (text_lower : string) (keywords : list string)
  (count : Z) (found_keywords : list string) : Z * list string :=
  match keywords with
  | [] => (count, found_keywords)
  | keyword :: rest =>
      if contains (lower keyword) text_lower
      then keyword_loop text_lower rest (count + 1)%Z
             (found_keywords ++ [keyword])
      else keyword_loop text_lower rest count found_keywords
  end.

Definition count_relevant_keywords (text : string) (keywords : list string)
  : Z * list string :=
  keyword_loop (lower text) keywords 0%Z [].

(** *** Record builder *)

(** The dictionary [resume_data] that [process_resume] builds. *)
Record ResumeRecord : Type := mk_resume {
  name : string;
  email : string;
  phone : string;
  experience : string;
  skills : string;
  keyword_count : Z;
  found_keywords : string;
  is_relevant : bool;
  file_name : string
}.

(** [os.path.basename]: what follows the last slash. *)
Fixpoint basename_go (cur : string) (path : string) : string :=
  match path with
  | EmptyString => cur
  | String c rest =>
      if Ascii.eqb c "/" then basename_go "" rest
      else basename_go (cur ++ String c EmptyString) rest
  end.

Definition basename (path : string) : string := basename_go "" path.

(** [process_resume]: [None] is the source's [None]. *)
Definition process_resume (fs : pdf_store) (pdf_path : string)
  (keywords : list string) : option ResumeRecord :=
  let text := extract_text_from_pdf fs pdf_path in
  if is_empty text then None
  else
    let '(name, email, phone) := extract_contact_info text in
    let '(experience, skills) := extract_experience_and_skills text keywords in
    let '(keyword_count, found_keywords) :=
      count_relevant_keywords text keywords in
    let is_relevant := (2 <=? keyword_count)%Z in
    Some {| name := name; email := email; phone := phone;
            experience := experience; skills := skills;
            keyword_count := keyword_count;
            found_keywords := join ", " found_keywords;
            is_relevant := is_relevant;
            file_name := basename pdf_path |}.

(** *** Batch loop *)

(** The loop of [monitor_input_folder]: a document for which
    [process_resume] gives [None] adds nothing.  Moving a processed file
    with [os.rename] does not change what the loop returns (a failure is
    caught and logged) and is left out. *)
Fixpoint monitor_loop (fs : pdf_store) (keywords : list string)
  (pdf_files : list string) (resume_data : list ResumeRecord)
  : list ResumeRecord :=
  match pdf_files with
  | [] => resume_data
  | pdf_file :: rest =>
      let pdf_path := INPUT_DIR ++ pdf_file in
      match process_resume fs pdf_path keywords with
      | Some data => monitor_loop fs keywords rest (resume_data ++ [data])
      | None => monitor_loop fs keywords rest resume_data
      end
  end.

(** [monitor_input_folder]: [listing] is what [os.listdir(INPUT_DIR)]
    returns. *)
Definition monitor_input_folder (fs : pdf_store) (listing : list string)
  (keywords : list string) : list ResumeRecord :=
  let pdf_files := filter (fun f => endswith ".pdf" (lower f)) listing in
  match pdf_files with
  | [] => []
  | _ => monitor_loop fs keywords pdf_files []
  end.

(** *** Survey merge and scoring *)

(** A cell of a pandas row. *)
Inductive cell : Type :=
| Absent            (* the row has no such column *)
| NaN               (* missing value *)
| Val (s : string). (* a value, as [str()] renders it *)

(** A row of the survey frame.  [None] is a missing value; for the email
    it also stands for a cell that [read_csv] parsed as a number, so that
    [Some] marks the cells that hold text. *)
Record SurveyResponse : Type := mk_survey {
  sv_email : option string;
  sv_availability : option string;
  sv_courses : option string;
  sv_visa : option string
}.

(** The survey frame: its rows and which of the three scored columns it
    carries.  It carries the [email] column, which [pd.merge] joins on. *)
Record SurveyFrame : Type := mk_frame {
  has_availability : bool;
  has_courses : bool;
  has_visa : bool;
  sv_rows : list SurveyResponse
}.

(** [survey_df.empty] *)
Definition frame_empty (survey_df : SurveyFrame) : bool :=
  match sv_rows survey_df with [] => true | _ :: _ => false end.

(** A row of the merged frame, before the score columns are added. *)
Record MergedRow : Type := mk_merged {
  resume : ResumeRecord;
  availability : cell;
  courses : cell;
  visa : cell
}.

Definition survey_cell (has_column : bool) (v : option string) : cell :=
  if has_column then match v with Some s => Val s | None => NaN end
  else Absent.

Definition key_matches (key : string) (row : SurveyResponse) : bool :=
  match sv_email row with
  | Some e => String.eqb key e
  | None => false
  end.

(** What a call gives: a value, or an exception that nothing catches. *)
Inductive outcome (A : Type) : Type :=
| Returns (a : A)
| RaisesError.

Arguments Returns {A} a.
Arguments RaisesError {A}.

(** The email column of the survey holds text: some cell is a string.  A
    column whose cells are all blank or all numbers is read as a numeric
    column. *)
Definition email_is_text (survey_df : SurveyFrame) : bool :=
  existsb (fun row => match sv_email row with
                      | Some _ => true
                      | None => false
                      end) (sv_rows survey_df).

(** The rows of the left join on email: the left rows in their order, each
    once per survey row with the same email in the survey's order, or once
    with missing survey cells when there is none. *)
Definition left_join_rows (resumes_df : list ResumeRecord)
  (survey_df : SurveyFrame) : list MergedRow :=
  flat_map
    (fun r =>
       match filter (key_matches (email r)) (sv_rows survey_df) with
       | [] =>
           [ {| resume := r;
                availability := survey_cell (has_availability survey_df) None;
                courses := survey_cell (has_courses survey_df) None;
                visa := survey_cell (has_visa survey_df) None |} ]
       | matches =>
           map (fun sv =>
                  {| resume := r;
                     availability :=
                       survey_cell (has_availability survey_df)
                         (sv_availability sv);
                     courses :=
                       survey_cell (has_courses survey_df) (sv_courses sv);
                     visa := survey_cell (has_visa survey_df) (sv_visa sv) |})
               matches
       end)
    resumes_df.

(** [pd.merge(resumes_df, survey_df, on="email", how="left")].  The email
    column of the records holds text; when both frames have rows and the
    survey's email column is numeric, pandas refuses to join the two
    columns and raises [ValueError].  Otherwise the result is the left
    join. *)
Definition merge_left (resumes_df : list ResumeRecord)
  (survey_df : SurveyFrame) : outcome (list MergedRow) :=
  match resumes_df, sv_rows survey_df with
  | _ :: _, _ :: _ =>
      if email_is_text survey_df
      then Returns (left_join_rows resumes_df survey_df)
      else RaisesError
  | _, _ => Returns (left_join_rows resumes_df survey_df)
  end.

(** The first statement of [classify_candidates]: [survey_df] is [None]
    when no survey responses were loaded. *)
Definition merged_df (resumes_df : list ResumeRecord)
  (survey_df : option SurveyFrame) : outcome (list MergedRow) :=
  match survey_df with
  | Some survey =>
      if negb (frame_empty survey) then merge_left resumes_df survey
      else Returns
             (map (fun r => {| resume := r; availability := Val "Unknown";
                               courses := Val "Unknown";
                               visa := Val "Unknown" |}) resumes_df)
  | None =>
      Returns
        (map (fun r => {| resume := r; availability := Val "Unknown";
                          courses := Val "Unknown";
                          visa := Val "Unknown" |}) resumes_df)
  end.

(** ["col" in row and pd.notna(row["col"])], giving [str(row["col"])]. *)
Definition present (c : cell) : option string :=
  match c with Val s => Some s | NaN => None | Absent => None end.

Local Open Scope Z_scope.

(** [calculate_priority], statement by statement. *)
Definition calculate_priority (row : MergedRow) : Z :=
  let score := 0 in
  let score := if is_relevant (resume row) then score + 2 else score in
  let score := score + Z.min (keyword_count (resume row)) 5 in
  let score :=
    match present (availability row) with
    | Some v =>
        let availability := lower v in
        if String.eqb availability "full availability" then score + 4
        else if String.eqb availability "morning" then score + 3
        else if String.eqb availability "night" then score + 1
        else score + 1
    | None => score
    end in
  let score :=
    match present (courses row) with
    | Some v =>
        let courses := lower v in
        if contains "food handling" courses || contains "haccp" courses
        then score + 3
        else if contains "food safety" courses then score + 2
        else if contains "customer service" courses then score + 2
        else if negb (String.eqb courses "none")
                && negb (String.eqb courses "unknown")
        then score + 1
        else score
    | None => score
    end in
  let score :=
    match present (visa row) with
    | Some v =>
        let visa_status := lower v in
        if String.eqb visa_status "stamp 4" then score + 3
        else if String.eqb visa_status "stamp 2" then score + 1
        else if String.eqb visa_status "irish" then score + 4
        else if String.eqb visa_status "ue" then score + 3
        else if String.eqb visa_status "stamp 1g" then score + 2
        else if String.eqb visa_status "stamp 1" then score + 0
        else score
    | None => score
    end in
  score.

Definition get_priority_level (score : Z) : string :=
  if 10 <=? score then "High"
  else if 6 <=? score then "Medium"
  else "Low".

Local Close Scope Z_scope.

(** A row of the frame that [classify_candidates] returns. *)
Record ClassifiedCandidate : Type := mk_classified {
  merged : MergedRow;
  priority_score : Z;
  priority : string
}.

(** [classify_candidates]: an exception of the merge is not caught. *)
Definition classify_candidates (resumes_df : list ResumeRecord)
  (survey_df : option SurveyFrame) : outcome (list ClassifiedCandidate) :=
  match merged_df resumes_df survey_df with
  | Returns rows =>
      Returns
        (map (fun row =>
                let score := calculate_priority row in
                {| merged := row; priority_score := score;
                   priority := get_priority_level score |})
             rows)
  | RaisesError => RaisesError
  end.

(** *** Derived notions used to state the properties *)

Local Open Scope Z_scope.

(** The points each signal adds, read off the branches of
    [calculate_priority]; [calculate_priority_sum] relates them to it. *)
Definition relevance_points (r : ResumeRecord) : Z :=
  if is_relevant r then 2 else 0.

Definition keyword_points (r : ResumeRecord) : Z :=
  Z.min (keyword_count r) 5.

Definition availability_points (c : cell) : Z :=
  match present c with
  | Some v =>
      if String.eqb (lower v) "full availability" then 4
      else if String.eqb (lower v) "morning" then 3
      else 1
  | None => 0
  end.

Definition courses_points (c : cell) : Z :=
  match present c with
  | Some v =>
      if contains "food handling" (lower v) || contains "haccp" (lower v)
      then 3
      else if contains "food safety" (lower v)
              || contains "customer service" (lower v) then 2
      else if String.eqb (lower v) "none" || String.eqb (lower v) "unknown"
      then 0
      else 1
  | None => 0
  end.

Definition visa_points (c : cell) : Z :=
  match present c with
  | Some v =>
      if String.eqb (lower v) "irish" then 4
      else if String.eqb (lower v) "stamp 4" || String.eqb (lower v) "ue"
      then 3
      else if String.eqb (lower v) "stamp 1g" then 2
      else if String.eqb (lower v) "stamp 2" then 1
      else 0
  | None => 0
  end.

Local Close Scope Z_scope.

(** The row with its availability cell replaced. *)
Definition with_availability (row : MergedRow) (c : cell) : MergedRow :=
  {| resume := resume row; availability := c;
     courses := courses row; visa := visa row |}.

(** The row a record gets when no survey data is merged in. *)
Definition unknown_row (r : ResumeRecord) : MergedRow :=
  {| resume := r; availability := Val "Unknown";
     courses := Val "Unknown"; visa := Val "Unknown" |}.

(** What one document contributes to the batch. *)
Definition batch_entry (fs : pdf_store) (keywords : list string)
  (pdf_file : string) : list ResumeRecord :=
  match process_resume fs (INPUT_DIR ++ pdf_file) keywords with
  | Some data => [data]
  | None => []
  end.

Definition is_pdf (f : string) : bool := endswith ".pdf" (lower f).

(** The predicate the keyword loop tests. *)
Definition keyword_hit (text : string) (keyword : string) : bool :=
  contains (lower keyword) (lower text).

(** [l1] is [l2] with some elements left out, the order kept. *)
Inductive Subseq {A : Type} : list A -> list A -> Prop :=
| Subseq_nil : Subseq [] []
| Subseq_skip x l1 l2 : Subseq l1 l2 -> Subseq l1 (x :: l2)
| Subseq_keep x l1 l2 : Subseq l1 l2 -> Subseq (x :: l1) (x :: l2).

(** No row of the survey has the record's email. *)
Definition unmatched (r : ResumeRecord) (survey : SurveyFrame) : bool :=
  negb (existsb (key_matches (email r)) (sv_rows survey)).

(** The survey source supplies nothing: it is absent, or has no rows. *)
Definition no_survey (survey_df : option SurveyFrame) : bool :=
  match survey_df with
  | Some survey => frame_empty survey
  | None => true
  end.

(** A text with one header and no skills token. *)
Definition one_header_text : string :=
  "John" ++ String newline "EXPERIENCE" ++ String newline "cook at diner".

(** The segment [j] holds a skills token, the segment after it exists, and
    no earlier segment holds one: [j + 1] is where the loop breaks. *)
Definition first_token_boundary (sections : list string) (j : nat)
  (seg : string) : Prop :=
  nth_error sections (S j) = Some seg
  /\ has_skills_token (nth j sections "") = true
  /\ forall j', j' < j -> has_skills_token (nth j' sections "") = false.

(** No segment that has a successor holds a skills token. *)
Definition no_token_boundary (sections : list string) : Prop :=
  forall j, S j < List.length sections ->
    has_skills_token (nth j sections "") = false.

(** The last segment, when the split has more than two. *)
Definition last_segment_fallback (sections : list string) : string :=
  if (2 <? List.length sections)%nat
  then take 500 (strip (last_of sections ""))
  else "".

(** Keywords that are not blank: what [load_keywords] returns. *)
Definition starts_nonspace (k : string) : Prop :=
  exists c rest, lower k = String c rest /\ is_space c = false.

(** A text whose first segment holds a skills token. *)
Definition skills_token_text : string :=
  "My skills are many" ++ String newline "EXPERIENCE"
  ++ String newline "cook at diner" ++ String newline "Education: BSc".

(** Concrete inputs used below. *)
Definition sample_resume : ResumeRecord :=
  {| name := "Ann Lee"; email := "a@x.com"; phone := "";
     experience := ""; skills := ""; keyword_count := 3;
     found_keywords := "cook, cashier, restaurant"; is_relevant := true;
     file_name := "ann.pdf" |}.

Definition sample_survey : SurveyFrame :=
  {| has_availability := true; has_courses := true; has_visa := true;
     sv_rows := [ {| sv_email := Some "b@x.com";
                     sv_availability := Some "morning";
                     sv_courses := Some "HACCP certified";
                     sv_visa := Some "irish" |} ] |}.

(** A survey in which one email answers twice. *)
Definition sample_survey_twice : SurveyFrame :=
  {| has_availability := true; has_courses := true; has_visa := true;
     sv_rows := [ {| sv_email := Some "a@x.com";
                     sv_availability := Some "morning";
                     sv_courses := Some "none";
                     sv_visa := Some "irish" |};
                  {| sv_email := Some "a@x.com";
                     sv_availability := Some "night";
                     sv_courses := Some "HACCP";
                     sv_visa := Some "stamp 2" |} ] |}.

(** A survey whose email cells are all blank. *)
Definition sample_survey_blank_email : SurveyFrame :=
  {| has_availability := true; has_courses := true; has_visa := true;
     sv_rows := [ {| sv_email := None;
                     sv_availability := Some "morning";
                     sv_courses := Some "none";
                     sv_visa := Some "irish" |} ] |}.

Definition sample_store (text : string) : pdf_store :=
  fun _ => Pages [text].

(** The row with its courses cell, or its visa cell, replaced. *)
Definition with_courses (row : MergedRow) (c : cell) : MergedRow :=
  {| resume := resume row; availability := availability row;
     courses := c; visa := visa row |}.

Definition with_visa (row : MergedRow) (c : cell) : MergedRow :=
  {| resume := resume row; availability := availability row;
     courses := courses row; visa := c |}.

(** The tiers in increasing order. *)
Definition tier_rank (priority : string) : nat :=
  if String.eqb priority "High" then 2
  else if String.eqb priority "Medium" then 1
  else 0.

(** Two cells that are the same up to the case of the value. *)
Definition same_up_to_case (c1 c2 : cell) : Prop :=
  match c1, c2 with
  | Val v1, Val v2 => lower v1 = lower v2
  | NaN, NaN => True
  | Absent, Absent => True
  | _, _ => False
  end.

(** How many survey rows carry the email of a record. *)
Definition match_count (r : ResumeRecord) (survey : SurveyFrame) : nat :=
  List.length (filter (key_matches (email r)) (sv_rows survey)).

(** A text that does not end in white space. *)
Fixpoint ends_nonspace (s : string) : bool :=
  match s with
  | EmptyString => false
  | String c EmptyString => negb (is_space c)
  | String _ rest => ends_nonspace rest
  end.

(** No slash occurs in a name. *)
Fixpoint no_slash (s : string) : bool :=
  match s with
  | EmptyString => true
  | String c rest => negb (Ascii.eqb c "/") && no_slash rest
  end.

(** A word of a name: not empty and free of white space. *)
Fixpoint no_space (s : string) : bool :=
  match s with
  | EmptyString => true
  | String c rest => negb (is_space c) && no_space rest
  end.

Definition is_token (w : string) : Prop := w <> "" /\ no_space w = true.

(** *** The whole run *)

(** [main], without its writes to disk, its simulated emails and its
    charts: the classified frame, or [None] when no document gave a
    record; an exception of [classify_candidates] ends the run.
    [survey_df] is what [load_survey_responses] returned. *)
Definition main (keywords_file : option (list string))
  (fs : pdf_store) (listing : list string)
  (survey_df : option SurveyFrame)
  : outcome (option (list ClassifiedCandidate)) :=
  let keywords := load_keywords keywords_file in
  let resume_data := monitor_input_folder fs listing keywords in
  match resume_data with
  | [] => Returns None
  | _ :: _ =>
      match classify_candidates resume_data survey_df with
      | Returns classified_df => Returns (Some classified_df)
      | RaisesError => RaisesError
      end
  end.

(** No line break occurs in a text. *)
Fixpoint no_newline (s : string) : bool :=
  match s with
  | EmptyString => true
  | String c rest => negb (Ascii.eqb newline c) && no_newline rest
  end.

(** *** Reading the keyword column back *)

(** [s.split(sep)] for a separator that is not empty.  [skip] counts the
    characters of the separator still to be dropped, [cur] is the piece
    being read. *)
Fixpoint split_str_go (sep : string) (s : string) (skip : nat)
  (cur : string) : list string :=
  match s with
  | EmptyString => [cur]
  | String c s' =>
      match skip with
      | S k => split_str_go sep s' k cur
      | O =>
          if startswith sep s
          then cur :: split_str_go sep s' (String.length sep - 1) ""
          else split_str_go sep s' 0 (cur ++ String c EmptyString)
      end
  end.

Definition split_str (sep : string) (s : string) : list string :=
  split_str_go sep s 0 "".

(** The keywords [visualize_results] reads from one cell of the
    [found_keywords] column: none for an empty cell, else the pieces
    between ", ". *)
Definition keywords_of_cell (keywords_str : string) : list string :=
  if is_empty keywords_str then [] else split_str ", " keywords_str.

(** A keyword that can be written to the column and read back. *)
Definition plain_keyword (k : string) : Prop :=
  k <> "" /\ contains ", " k = false.

End Pipeline.

(* ================================================================== *)
(** ** The sample CV writer ([convert_to_pdf.py]) *)

Module CvWriter.
Import PyStr Pipeline.

(** The three paragraph styles [create_pdf_from_content] defines. *)
Inductive style : Type :=
| title_style
| normal_style
| section_style.

(** What is handed to [doc.build]. *)
Inductive flowable : Type :=
| Paragraph (text : string) (st : style)
| Spacer (width height : nat).

Fixpoint has_upper (s : string) : bool :=
  match s with
  | EmptyString => false
  | String c rest => is_upper c || has_upper rest
  end.

Fixpoint has_lower (s : string) : bool :=
  match s with
  | EmptyString => false
  | String c rest => is_lower c || has_lower rest
  end.

(** [s.isupper()]: some cased character, and none in lower case. *)
Definition isupper (s : string) : bool :=
  has_upper s && negb (has_lower s).

(** [Paragraph(text, style)]: reportlab reads [text] as markup when the
    paragraph is made and raises [ValueError] on text it cannot parse.
    [markup_ok] stands for reportlab's parser, which is not part of this
    repository: it tells which texts it accepts. *)
Definition make_paragraph (markup_ok : string -> bool) (text : string)
  (st : style) : outcome flowable :=
  if markup_ok text then Returns (Paragraph text st) else RaisesError.

(** The loop over [lines[1:]]. *)
Fixpoint content_loop (markup_ok : string -> bool) (lines : list string)
  (flowables : list flowable) : outcome (list flowable) :=
  match lines with
  | [] => Returns flowables
  | line :: rest =>
      let line := strip line in
      if is_empty line
      then content_loop markup_ok rest (flowables ++ [Spacer 1 6])
      else
        let st :=
          if isupper line && (3 <? String.length line)%nat
          then section_style else normal_style in
        match make_paragraph markup_ok line st with
        | Returns paragraph =>
            content_loop markup_ok rest (flowables ++ [paragraph])
        | RaisesError => RaisesError
        end
  end.

(** [create_pdf_from_content]: the flowables it hands to [doc.build], or
    the exception of the first paragraph that cannot be made. *)
Definition create_pdf_from_content (markup_ok : string -> bool)
  (content : string) : outcome (list flowable) :=
  let lines := split_char newline content in
  let title :=
    match lines with
    | [] => Returns []
    | first :: _ =>
        match make_paragraph markup_ok first title_style with
        | Returns paragraph => Returns [paragraph; Spacer 1 12]
        | RaisesError => RaisesError
        end
    end in
  match title with
  | Returns flowables => content_loop markup_ok (tl lines) flowables
  | RaisesError => RaisesError
  end.

(** The texts of the paragraphs, in order. *)
Fixpoint paragraph_texts (flowables : list flowable) : list string :=
  match flowables with
  | [] => []
  | Paragraph text _ :: rest => text :: paragraph_texts rest
  | Spacer _ _ :: rest => paragraph_texts rest
  end.

(** What one line after the first becomes. *)
Definition line_flowable (line : string) : flowable :=
  if is_empty (strip line) then Spacer 1 6
  else if isupper (strip line) && (3 <? String.length (strip line))%nat
  then Paragraph (strip line) section_style
  else Paragraph (strip line) normal_style.

(** The texts that become paragraphs: the first line as it is, and the
    later lines that are not blank, stripped. *)
Definition texts_of (lines : list string) : list string :=
  hd "" lines :: filter (fun l => negb (is_empty l)) (map strip (tl lines)).

End CvWriter.

(* ================================================================== *)
(** * Properties *)

Import PyStr Re Pipeline.

(** ** Scoring and classification *)

Section Scoring.

Local Open Scope Z_scope.

Lemma calculate_priority_sum (row : MergedRow) :
  calculate_priority row =
    relevance_points (resume row) + keyword_points (resume row)
    + availability_points (availability row)
    + courses_points (courses row) + visa_points (visa row).
Proof.
  unfold calculate_priority, relevance_points, keyword_points,
    availability_points, courses_points, visa_points.
  cbv zeta.
  destruct (is_relevant (resume row));
    destruct (present (availability row)) as [a|];
    destruct (present (courses row)) as [c|];
    destruct (present (visa row)) as [v|];
    repeat match goal with
      | |- context [String.eqb ?x ?y] => destruct (String.eqb_spec x y)
      | |- context [contains ?x ?y] => destruct (contains x y)
      end;
    cbn [orb andb negb];
    try lia; try congruence.
Qed.

Lemma availability_points_bounds (c : cell) :
  0 <= availability_points c <= 4.
Proof.
  unfold availability_points.
  destruct (present c); repeat destruct (String.eqb _ _); lia.
Qed.

Lemma courses_points_bounds (c : cell) : 0 <= courses_points c <= 3.
Proof.
  unfold courses_points.
  destruct (present c); repeat destruct (_ || _)%bool; lia.
Qed.

Lemma visa_points_bounds (c : cell) : 0 <= visa_points c <= 4.
Proof.
  unfold visa_points.
  destruct (present c);
    repeat first [destruct (_ || _)%bool | destruct (String.eqb _ _)]; lia.
Qed.

(** C4. The classifier is a function of the score with fixed thresholds:
    a score of at least 10 is High, a score from 6 to 9 is Medium, a
    score below 6 is Low; so 10 is High, 9 and 6 are Medium, 5 is Low. *)
Theorem get_priority_level_thresholds :
  (forall score,
      (10 <= score <-> get_priority_level score = "High")
      /\ (6 <= score < 10 <-> get_priority_level score = "Medium")
      /\ (score < 6 <-> get_priority_level score = "Low"))
  /\ get_priority_level 10 = "High"
  /\ get_priority_level 9 = "Medium"
  /\ get_priority_level 6 = "Medium"
  /\ get_priority_level 5 = "Low".
Proof.
  split; [| repeat split].
  intro score. unfold get_priority_level.
  destruct (Z.leb_spec 10 score); destruct (Z.leb_spec 6 score);
    repeat split; intros; try lia; try discriminate; try reflexivity.
Qed.

(** C1, as the code computes it.  Relative to a row without the
    availability column, a present availability value adds 4 when it is
    "full availability" up to case, 3 when it is "morning", and 1 for
    every other value: for "night", and also for the sentinel "Unknown",
    which the claim expects to add nothing.  A missing value adds 0. *)
Theorem availability_contribution (row : MergedRow) :
  let base := calculate_priority (with_availability row Absent) in
  (forall v, lower v = "full availability" ->
     calculate_priority (with_availability row (Val v)) = base + 4)
  /\ (forall v, lower v = "morning" ->
     calculate_priority (with_availability row (Val v)) = base + 3)
  /\ (forall v, lower v = "night" ->
     calculate_priority (with_availability row (Val v)) = base + 1)
  /\ (forall v, lower v <> "full availability" -> lower v <> "morning" ->
     calculate_priority (with_availability row (Val v)) = base + 1)
  /\ calculate_priority (with_availability row (Val "Unknown")) = base + 1
  /\ calculate_priority (with_availability row NaN) = base.
Proof.
  cbv zeta.
  assert (Hsum : forall c,
    calculate_priority (with_availability row c) =
      calculate_priority (with_availability row Absent)
      + availability_points c).
  { intro c. rewrite !calculate_priority_sum.
    cbn [with_availability resume availability courses visa].
    change (availability_points Absent) with 0. lia. }
  repeat apply conj; intros; rewrite Hsum;
    unfold availability_points; cbn [present].
  - rewrite H. reflexivity.
  - rewrite H. reflexivity.
  - rewrite H. reflexivity.
  - destruct (String.eqb_spec (lower v) "full availability");
      [contradiction |].
    destruct (String.eqb_spec (lower v) "morning"); [contradiction |].
    reflexivity.
  - reflexivity.
  - lia.
Qed.

(** C2, as the code computes it.  With no survey source, a relevant
    record with three keywords is scored 2 + 3 + 1 + 0 + 0 = 6 and
    classified Medium: the "Unknown" availability the code fills in adds a
    point, where the claim expects a score of 5 and Low. *)
Theorem no_survey_relevant_three_keywords
  (name email phone experience skills found_keywords file_name : string) :
  let r := mk_resume name email phone experience skills 3 found_keywords
             true file_name in
  classify_candidates [r] None =
    Returns [ {| merged := unknown_row r; priority_score := 6;
                 priority := "Medium" |} ].
Proof. reflexivity. Qed.

(** C5. The score is a total function of the joined row; for a row whose
    keyword count is non-negative, as every count is, it lies between 0
    and the maximum of the rule table, 2 + 5 + 4 + 3 + 4 = 18. *)
Theorem calculate_priority_bounds (row : MergedRow) :
  0 <= keyword_count (resume row) ->
  0 <= calculate_priority row <= 2 + 5 + 4 + 3 + 4.
Proof.
  intro Hk. rewrite calculate_priority_sum.
  pose proof (availability_points_bounds (availability row)).
  pose proof (courses_points_bounds (courses row)).
  pose proof (visa_points_bounds (visa row)).
  unfold relevance_points, keyword_points.
  destruct (is_relevant (resume row)); lia.
Qed.

End Scoring.

(* ------------------------------------------------------------------ *)
(** ** Facts about the string operations *)

Section StringFacts.

Lemma take_length (n : nat) (s : string) : String.length (take n s) <= n.
Proof.
  revert s; induction n as [|n IH]; intros [|c s]; cbn; try lia.
  specialize (IH s). lia.
Qed.

Lemma startswith_app (p t : string) : startswith p (p ++ t) = true.
Proof.
  induction p as [|c p IH]; cbn; [reflexivity |].
  now rewrite Ascii.eqb_refl.
Qed.

Lemma startswith_spec (p s : string) :
  startswith p s = true <-> exists t, s = p ++ t.
Proof.
  split.
  - revert s; induction p as [|a p IH]; intros s H.
    + now exists s.
    + destruct s as [|b s]; cbn in H; [discriminate |].
      apply andb_true_iff in H as [Hab Hp].
      apply Ascii.eqb_eq in Hab; subst b.
      destruct (IH _ Hp) as [t ->]. now exists t.
  - intros [t ->]. apply startswith_app.
Qed.

Lemma contains_spec (p s : string) :
  contains p s = true <-> exists a b, s = a ++ p ++ b.
Proof.
  split.
  - induction s as [|c s IH]; cbn; intro H.
    + rewrite orb_false_r in H. apply startswith_spec in H as [t Ht].
      now exists "", t.
    + apply orb_true_iff in H as [H | H].
      * apply startswith_spec in H as [t Ht]. now exists "", t.
      * destruct (IH H) as (a & b & ->). now exists (String c a), b.
  - intros (a & b & ->). induction a as [|c a IH].
    + cbn [append]. destruct (p ++ b) eqn:E; cbn;
        rewrite <- E, startswith_app; reflexivity.
    + cbn [append contains]. rewrite IH. apply orb_true_r.
Qed.

End StringFacts.

(* ------------------------------------------------------------------ *)
(** ** Keyword matching and relevance *)

Section Keywords.

Lemma keyword_loop_filter (text_lower : string) (keywords : list string) :
  forall count acc,
    keyword_loop text_lower keywords count acc =
      ((count + Z.of_nat (List.length
          (filter (fun k => contains (lower k) text_lower) keywords)))%Z,
       (acc ++ filter (fun k => contains (lower k) text_lower) keywords)%list).
Proof.
  induction keywords as [|k ks IH]; intros count acc; cbn [keyword_loop filter].
  - cbn. now rewrite Z.add_0_r, app_nil_r.
  - destruct (contains (lower k) text_lower).
    + rewrite IH. cbn [List.length]. rewrite <- app_assoc. cbn [app].
      f_equal. lia.
    + apply IH.
Qed.

Lemma count_relevant_keywords_filter (text : string) (keywords : list string) :
  count_relevant_keywords text keywords =
    (Z.of_nat (List.length (filter (keyword_hit text) keywords)),
     filter (keyword_hit text) keywords).
Proof.
  unfold count_relevant_keywords. rewrite keyword_loop_filter. reflexivity.
Qed.

Lemma filter_Subseq {A : Type} (f : A -> bool) (l : list A) :
  Subseq (filter f l) l.
Proof.
  induction l as [|x l IH]; cbn; [constructor |].
  destruct (f x); now constructor.
Qed.

(** C6. The keyword matcher returns the number of matched keywords and
    the matched keywords themselves: the count is the length of the list,
    every matched keyword is a keyword, the matched keywords come in the
    order of the keyword list, and a keyword is matched exactly when its
    lower-case form occurs in the lower-case text as a contiguous run. *)
Theorem count_relevant_keywords_spec (text : string) (keywords : list string) :
  let count := fst (count_relevant_keywords text keywords) in
  let matched := snd (count_relevant_keywords text keywords) in
  count = Z.of_nat (List.length matched)
  /\ incl matched keywords
  /\ Subseq matched keywords
  /\ matched = filter (keyword_hit text) keywords
  /\ (forall k, In k matched <->
        In k keywords
        /\ exists before after, lower text = before ++ lower k ++ after).
Proof.
  cbv zeta. rewrite count_relevant_keywords_filter. cbn [fst snd].
  repeat apply conj.
  - reflexivity.
  - intros k Hk. now apply filter_In in Hk.
  - apply filter_Subseq.
  - reflexivity.
  - intro k. rewrite filter_In. unfold keyword_hit.
    now rewrite contains_spec.
Qed.

Lemma process_resume_some (fs : pdf_store) (pdf_path : string)
  (keywords : list string) (r : ResumeRecord) :
  process_resume fs pdf_path keywords = Some r ->
  let text := extract_text_from_pdf fs pdf_path in
  text <> ""
  /\ (name r, email r, phone r) = extract_contact_info text
  /\ (experience r, skills r) = extract_experience_and_skills text keywords
  /\ keyword_count r = fst (count_relevant_keywords text keywords)
  /\ is_relevant r = (2 <=? keyword_count r)%Z.
Proof.
  unfold process_resume. cbv zeta.
  destruct (extract_text_from_pdf fs pdf_path) as [|c text] eqn:Et;
    cbn [is_empty]; [discriminate |].
  destruct (extract_contact_info _) as [[n e] ph].
  destruct (extract_experience_and_skills _ _) as [ex sk].
  destruct (count_relevant_keywords _ _) as [kc fk].
  intro H; injection H as <-. cbn. repeat split. discriminate.
Qed.

(** C7. In every record the builder produces, [is_relevant] holds exactly
    when the keyword count is at least 2: a count of 2 is relevant, a
    count of 1 is not. *)
Theorem is_relevant_iff_two_keywords (fs : pdf_store) (pdf_path : string)
  (keywords : list string) (r : ResumeRecord) :
  process_resume fs pdf_path keywords = Some r ->
  (is_relevant r = true <-> (2 <= keyword_count r)%Z)
  /\ (keyword_count r = 2%Z -> is_relevant r = true)
  /\ (keyword_count r = 1%Z -> is_relevant r = false).
Proof.
  intro H. apply process_resume_some in H as (_ & _ & _ & _ & Hrel).
  rewrite Hrel. repeat split.
  - intro E. now apply Z.leb_le.
  - intro E. now apply Z.leb_le.
  - intros ->. reflexivity.
  - intros ->. reflexivity.
Qed.

Lemma is_relevant_iff_two_keywords_witness :
  exists r,
    process_resume (sample_store "a@x.com cook and Cashier") "./input_cv/a.pdf"
      ["cook"; "cashier"] = Some r
    /\ keyword_count r = 2%Z /\ is_relevant r = true.
Proof.
  eexists. split; [reflexivity |].
  split; [reflexivity |].
  apply (is_relevant_iff_two_keywords
           (sample_store "a@x.com cook and Cashier") "./input_cv/a.pdf"
           ["cook"; "cashier"]); reflexivity.
Defined.

End Keywords.

(* ------------------------------------------------------------------ *)
(** ** Survey merge *)

Section Merge.

Lemma filter_nil_existsb {A : Type} (f : A -> bool) (l : list A) :
  existsb f l = false -> filter f l = [].
Proof.
  induction l as [|x l IH]; cbn; [reflexivity |].
  destruct (f x); cbn; [discriminate | exact IH].
Qed.

(** The rows one record contributes to the left merge. *)
Lemma merge_left_rows (resumes_df : list ResumeRecord) (survey : SurveyFrame)
  (row : MergedRow) :
  In row (left_join_rows resumes_df survey) ->
  In (resume row) resumes_df
  /\ (unmatched (resume row) survey = true ->
      availability row = survey_cell (has_availability survey) None
      /\ courses row = survey_cell (has_courses survey) None
      /\ visa row = survey_cell (has_visa survey) None).
Proof.
  unfold left_join_rows. rewrite in_flat_map. intros (r & Hr & Hrow).
  destruct (filter (key_matches (email r)) (sv_rows survey)) as [|m ms] eqn:E.
  - destruct Hrow as [<- | []]. cbn. auto.
  - apply in_map_iff in Hrow as (sv & <- & Hsv). cbn [resume].
    split; [exact Hr |]. unfold unmatched. intro Hun.
    apply negb_true_iff in Hun. apply filter_nil_existsb in Hun.
    rewrite Hun in E. discriminate.
Qed.

Lemma merge_left_covers (resumes_df : list ResumeRecord)
  (survey : SurveyFrame) (r : ResumeRecord) :
  In r resumes_df ->
  exists row, In row (left_join_rows resumes_df survey) /\ resume row = r.
Proof.
  intro Hr. unfold left_join_rows.
  destruct (filter (key_matches (email r)) (sv_rows survey)) as [|m ms] eqn:E.
  - eexists. split.
    + apply in_flat_map. exists r. split; [exact Hr |]. rewrite E.
      left. reflexivity.
    + reflexivity.
  - eexists. split.
    + apply in_flat_map. exists r. split; [exact Hr |]. rewrite E.
      left. reflexivity.
    + reflexivity.
Qed.

Lemma merge_left_length (resumes_df : list ResumeRecord)
  (survey : SurveyFrame) :
  List.length resumes_df <= List.length (left_join_rows resumes_df survey).
Proof.
  unfold left_join_rows.
  induction resumes_df as [|r rs IH]; cbn [flat_map]; [cbn; lia |].
  rewrite length_app.
  destruct (filter (key_matches (email r)) (sv_rows survey));
    rewrite ?length_map; cbn [List.length]; lia.
Qed.

Lemma unknown_rows (resumes_df : list ResumeRecord) (row : MergedRow) :
  In row (map unknown_row resumes_df) ->
  In (resume row) resumes_df
  /\ availability row = Val "Unknown"
  /\ courses row = Val "Unknown"
  /\ visa row = Val "Unknown".
Proof.
  intro H. apply in_map_iff in H as (r & <- & Hr). cbn. auto.
Qed.

(** The merge returns the left join when the email column of the survey
    holds text, and whenever it returns. *)
Lemma merge_left_text (resumes_df : list ResumeRecord)
  (survey : SurveyFrame) :
  email_is_text survey = true ->
  merge_left resumes_df survey = Returns (left_join_rows resumes_df survey).
Proof.
  intro H. unfold merge_left. rewrite H.
  destruct resumes_df; destruct (sv_rows survey); reflexivity.
Qed.

Lemma merge_left_returns (resumes_df : list ResumeRecord)
  (survey : SurveyFrame) (rows : list MergedRow) :
  merge_left resumes_df survey = Returns rows ->
  rows = left_join_rows resumes_df survey.
Proof.
  unfold merge_left.
  destruct resumes_df; destruct (sv_rows survey);
    try destruct (email_is_text survey); intro H;
    first [discriminate | now injection H as <-].
Qed.

(** The merge raises when both frames have rows and no email cell of the
    survey is text. *)
Lemma merge_left_numeric (resumes_df : list ResumeRecord)
  (survey : SurveyFrame) :
  resumes_df <> [] -> frame_empty survey = false ->
  email_is_text survey = false ->
  merge_left resumes_df survey = RaisesError.
Proof.
  unfold merge_left, frame_empty. intros Hr Hs Ht. rewrite Ht.
  destruct resumes_df; [congruence |].
  destruct (sv_rows survey); [discriminate | reflexivity].
Qed.

Lemma merged_df_cases (resumes_df : list ResumeRecord)
  (survey_df : option SurveyFrame) :
  (no_survey survey_df = true
   /\ merged_df resumes_df survey_df = Returns (map unknown_row resumes_df))
  \/ (exists survey, survey_df = Some survey
      /\ no_survey survey_df = false
      /\ merged_df resumes_df survey_df = merge_left resumes_df survey).
Proof.
  destruct survey_df as [survey|]; cbn [merged_df no_survey].
  - destruct (frame_empty survey) eqn:E; cbn [negb].
    + left. split; reflexivity.
    + right. exists survey. repeat split.
  - left. split; reflexivity.
Qed.

Lemma merged_df_returns (resumes_df : list ResumeRecord)
  (survey_df : option SurveyFrame) (rows : list MergedRow) :
  merged_df resumes_df survey_df = Returns rows ->
  (no_survey survey_df = true /\ rows = map unknown_row resumes_df)
  \/ (exists survey, survey_df = Some survey
      /\ no_survey survey_df = false
      /\ rows = left_join_rows resumes_df survey).
Proof.
  intro H.
  destruct (merged_df_cases resumes_df survey_df)
    as [[Hno E] | (survey & Es & Hno & E)]; rewrite E in H.
  - left. split; [exact Hno | now injection H as <-].
  - right. exists survey. repeat split; auto.
    now apply merge_left_returns.
Qed.

Lemma merged_rows_from_batch (resumes_df : list ResumeRecord)
  (survey_df : option SurveyFrame) (rows : list MergedRow)
  (row : MergedRow) :
  merged_df resumes_df survey_df = Returns rows -> In row rows ->
  In (resume row) resumes_df.
Proof.
  intros H Hrow.
  destruct (merged_df_returns _ _ _ H) as [[_ ->] | (survey & _ & _ & ->)].
  - now apply unknown_rows in Hrow.
  - now apply merge_left_rows in Hrow.
Qed.

(** C3, counterexample.  A record whose email matches no row of a
    non-empty survey comes out with missing survey cells, not with
    "Unknown". *)
Lemma unmatched_record_is_not_unknown :
  unmatched sample_resume sample_survey = true
  /\ merged_df [sample_resume] (Some sample_survey) =
     Returns [ {| resume := sample_resume; availability := NaN;
                  courses := NaN; visa := NaN |} ]
  /\ NaN <> Val "Unknown".
Proof. repeat split. discriminate. Qed.

(** C3, amended.  The merge is a left join on email.  It returns when the
    survey source is absent or has no rows, and when the email column of
    the survey holds text.  Whenever it returns, every record appears at
    least once in the output, every row comes from a record of the batch
    and the output is at least as long as the batch; with no survey every
    row carries "Unknown" in the three survey fields; with a survey that
    has rows, a record whose email matches none of them gets missing
    survey cells (NaN for a column the survey has), which the scoring
    skips. *)
Theorem merge_is_left_join (resumes_df : list ResumeRecord)
  (survey_df : option SurveyFrame) :
  (forall out, merged_df resumes_df survey_df = Returns out ->
     (forall r, In r resumes_df -> exists row, In row out /\ resume row = r)
     /\ (forall row, In row out -> In (resume row) resumes_df)
     /\ List.length resumes_df <= List.length out
     /\ (no_survey survey_df = true ->
         forall row, In row out ->
           availability row = Val "Unknown"
           /\ courses row = Val "Unknown"
           /\ visa row = Val "Unknown")
     /\ (forall survey, survey_df = Some survey ->
         no_survey survey_df = false ->
         forall row, In row out -> unmatched (resume row) survey = true ->
           availability row = (if has_availability survey then NaN else Absent)
           /\ courses row = (if has_courses survey then NaN else Absent)
           /\ visa row = (if has_visa survey then NaN else Absent)
           /\ availability_points (availability row) = 0%Z
           /\ courses_points (courses row) = 0%Z
           /\ visa_points (visa row) = 0%Z))
  /\ (no_survey survey_df = true ->
      exists out, merged_df resumes_df survey_df = Returns out)
  /\ (forall survey, survey_df = Some survey ->
      email_is_text survey = true ->
      exists out, merged_df resumes_df survey_df = Returns out).
Proof.
  repeat apply conj.
  - intros out Hout.
    destruct (merged_df_returns _ _ _ Hout)
      as [[Hno ->] | (survey & -> & Hno & ->)].
    + repeat apply conj.
      * intros r Hr. exists (unknown_row r). split; [| reflexivity].
        now apply in_map.
      * intros row H. now apply unknown_rows in H.
      * rewrite length_map. lia.
      * intros _ row H. now apply unknown_rows in H.
      * intros survey -> Hf. congruence.
    + repeat apply conj.
      * intros r Hr. now apply merge_left_covers.
      * intros row H. now apply merge_left_rows in H.
      * apply merge_left_length.
      * congruence.
      * intros survey' E _ row Hrow Hun. injection E as <-.
        apply merge_left_rows in Hrow as [_ Hcells].
        destruct (Hcells Hun) as (-> & -> & ->).
        unfold survey_cell.
        destruct (has_availability survey), (has_courses survey),
          (has_visa survey); repeat split.
  - intro Hno.
    destruct (merged_df_cases resumes_df survey_df)
      as [[_ E] | (survey & _ & Hf & _)]; [eauto | congruence].
  - intros survey -> Ht.
    destruct (merged_df_cases resumes_df (Some survey))
      as [[_ E] | (survey' & Es & _ & E)]; [eauto |].
    injection Es as <-. rewrite E, (merge_left_text _ _ Ht). eauto.
Qed.

End Merge.

(* ------------------------------------------------------------------ *)
(** ** Batch processing *)

Section Batch.

Lemma monitor_loop_flat_map (fs : pdf_store) (keywords : list string)
  (pdf_files : list string) :
  forall acc,
    monitor_loop fs keywords pdf_files acc =
      (acc ++ flat_map (batch_entry fs keywords) pdf_files)%list.
Proof.
  induction pdf_files as [|f fsl IH]; intro acc; cbn [monitor_loop flat_map].
  - now rewrite app_nil_r.
  - unfold batch_entry at 1.
    destruct (process_resume fs (INPUT_DIR ++ f) keywords); rewrite IH.
    + now rewrite <- app_assoc.
    + reflexivity.
Qed.

Lemma monitor_input_folder_flat_map (fs : pdf_store) (listing : list string)
  (keywords : list string) :
  monitor_input_folder fs listing keywords =
    flat_map (batch_entry fs keywords) (filter is_pdf listing).
Proof.
  unfold monitor_input_folder. fold is_pdf.
  destruct (filter is_pdf listing) as [|f l] eqn:E; [reflexivity |].
  now rewrite monitor_loop_flat_map.
Qed.

Lemma process_resume_none (fs : pdf_store) (pdf_path : string)
  (keywords : list string) :
  process_resume fs pdf_path keywords = None <->
  extract_text_from_pdf fs pdf_path = "".
Proof.
  unfold process_resume. cbv zeta.
  destruct (extract_text_from_pdf fs pdf_path) as [|c text];
    cbn [is_empty].
  - split; reflexivity.
  - destruct (extract_contact_info _) as [[n e] ph].
    destruct (extract_experience_and_skills _ _) as [ex sk].
    destruct (count_relevant_keywords _ _) as [kc fk].
    split; discriminate.
Qed.

Lemma extract_text_raises (fs : pdf_store) (pdf_path : string) :
  fs pdf_path = Raises -> extract_text_from_pdf fs pdf_path = "".
Proof. unfold extract_text_from_pdf. now intros ->. Qed.

(** C9. A document whose extraction yields no text, because it has none or
    because the extraction raised, is skipped: the batch result is a plain
    list, equal to the result of the batch without that document, so the
    other documents are processed as before; and every record of the
    result comes from a listed document with text. *)
Theorem unreadable_document_is_skipped (fs : pdf_store)
  (keywords : list string) (before after : list string) (doc : string) :
  extract_text_from_pdf fs (INPUT_DIR ++ doc) = "" ->
  monitor_input_folder fs (before ++ doc :: after) keywords =
    monitor_input_folder fs (before ++ after) keywords
  /\ (forall r,
        In r (monitor_input_folder fs (before ++ doc :: after) keywords) ->
        exists f, In f (before ++ after)
          /\ extract_text_from_pdf fs (INPUT_DIR ++ f) <> ""
          /\ process_resume fs (INPUT_DIR ++ f) keywords = Some r)
  /\ (forall f, In f (before ++ after) -> is_pdf f = true ->
        extract_text_from_pdf fs (INPUT_DIR ++ f) <> "" ->
        exists r, process_resume fs (INPUT_DIR ++ f) keywords = Some r
          /\ In r (monitor_input_folder fs (before ++ doc :: after) keywords)).
Proof.
  intro Hdoc.
  assert (Hskip : batch_entry fs keywords doc = []).
  { unfold batch_entry.
    now rewrite (proj2 (process_resume_none fs _ keywords) Hdoc). }
  assert (Heq : monitor_input_folder fs (before ++ doc :: after) keywords =
                monitor_input_folder fs (before ++ after) keywords).
  { rewrite !monitor_input_folder_flat_map, !filter_app, !flat_map_app.
    cbn [filter]. destruct (is_pdf doc); [| reflexivity].
    cbn [flat_map]. now rewrite Hskip. }
  split; [exact Heq |]. rewrite Heq, monitor_input_folder_flat_map.
  split.
  - intros r Hr. apply in_flat_map in Hr as (f & Hf & Hin).
    apply filter_In in Hf as [Hf _]. exists f. split; [exact Hf |].
    unfold batch_entry in Hin.
    destruct (process_resume fs (INPUT_DIR ++ f) keywords) as [d|] eqn:E;
      [| destruct Hin].
    destruct Hin as [<- | []]. split; [| reflexivity].
    intro Hempty.
    apply (proj2 (process_resume_none fs _ keywords)) in Hempty.
    congruence.
  - intros f Hf Hpdf Htext.
    destruct (process_resume fs (INPUT_DIR ++ f) keywords) as [d|] eqn:E.
    + exists d. split; [reflexivity |]. apply in_flat_map. exists f.
      split; [now apply filter_In |]. unfold batch_entry. rewrite E.
      now left.
    + apply process_resume_none in E. contradiction.
Qed.

End Batch.

(* ------------------------------------------------------------------ *)
(** ** The matcher on the patterns of the source *)

Section Matcher.

(** A case-insensitive word matches exactly where the lower-case text
    starts with the lower-case word. *)
Lemma run_word_i (w : string) :
  forall prev s n,
    run (word_i w) prev s n (fun _ _ m => Some m) =
      if startswith (lower w) (lower s)
      then Some (n + String.length w) else None.
Proof.
  induction w as [|c w IH]; intros prev s n.
  - cbn. f_equal. lia.
  - cbn [word_i run lit_i lower]. destruct s as [|x s]; [reflexivity |].
    cbn [lower startswith String.length].
    rewrite (Ascii.eqb_sym (lower_char c)).
    destruct (Ascii.eqb (lower_char x) (lower_char c)); cbn [andb];
      [| reflexivity].
    rewrite IH. destruct (startswith _ _); [f_equal; lia | reflexivity].
Qed.

Lemma has_skills_token_contains (segment : string) :
  has_skills_token segment =
    contains "skills" (lower segment)
    || contains "qualifications" (lower segment).
Proof.
  unfold has_skills_token, search.
  generalize (@None ascii) as prev.
  induction segment as [|x s IH]; intro prev.
  - reflexivity.
  - cbn [search_from]. unfold match_here, skills_token_pattern.
    cbn [run]. rewrite !run_word_i.
    change (lower "SKILLS") with "skills".
    change (lower "QUALIFICATIONS") with "qualifications".
    cbn [lower contains].
    destruct (startswith "skills" _); [reflexivity |].
    destruct (startswith "qualifications" _).
    + cbn [first_some found orb]. now rewrite orb_true_r.
    + cbn [first_some orb]. apply IH.
Qed.

End Matcher.

(* ------------------------------------------------------------------ *)
(** ** Section extraction *)

Section Sections.

Lemma skipn_cons_nth {A : Type} (l : list A) :
  forall i x r, skipn i l = x :: r ->
    nth_error l i = Some x /\ skipn (S i) l = r.
Proof.
  induction l as [|a l IH]; intros [|i] x r H; cbn in *; try discriminate.
  - injection H as <- <-. split; reflexivity.
  - destruct (IH i x r H) as [H1 H2]. split; [exact H1 |].
    destruct l; [now destruct i | exact H2].
Qed.

Lemma skills_loop_break (sections : list string) (j : nat) (seg : string) :
  first_token_boundary sections j seg ->
  forall rest i, skipn i sections = rest -> i <= S j ->
    (forall j', i <= S j' -> j' < j ->
       has_skills_token (nth j' sections "") = false) ->
    skills_loop sections i rest = take 500 (strip seg).
Proof.
  intros (Hseg & Htok & _).
  induction rest as [|section rest IH]; intros i Hskip Hi Hbefore.
  - assert (List.length sections <= i).
    { rewrite <- (firstn_skipn i sections) at 1. rewrite Hskip, app_nil_r.
      apply firstn_le_length. }
    assert (S j < List.length sections)
      by (apply nth_error_Some; congruence).
    lia.
  - apply skipn_cons_nth in Hskip as [Hnth Hskip].
    cbn [skills_loop].
    destruct (Nat.eq_dec i (S j)) as [-> | Hne].
    + cbn [Nat.ltb Nat.leb andb]. rewrite Nat.sub_1_r. cbn [Nat.pred].
      rewrite Htok. congruence.
    + destruct i as [|i].
      * cbn [Nat.ltb Nat.leb andb]. apply IH; [exact Hskip | lia |].
        intros; apply Hbefore; lia.
      * replace (S i - 1) with i by lia.
        rewrite (Hbefore i) by lia. rewrite andb_false_r.
        apply IH; [exact Hskip | lia |]. intros; apply Hbefore; lia.
Qed.

Lemma skills_loop_no_break (sections : list string) :
  no_token_boundary sections ->
  forall rest i, skipn i sections = rest ->
    skills_loop sections i rest = "".
Proof.
  intro Hno. induction rest as [|section rest IH]; intros i Hskip;
    [reflexivity |].
  apply skipn_cons_nth in Hskip as [Hnth Hskip]. cbn [skills_loop].
  assert (i < List.length sections)
    by (apply nth_error_Some; congruence).
  destruct i as [|i].
  - cbn [Nat.ltb Nat.leb andb]. now apply IH.
  - replace (S i - 1) with i by lia. rewrite (Hno i) by lia.
    rewrite andb_false_r. now apply IH.
Qed.

Lemma is_empty_true (s : string) : is_empty s = true <-> s = "".
Proof. destruct s; cbn; split; congruence. Qed.

(** C8, counterexample.  With one header and no skills token the split
    has two segments and [skills_text] is empty, not the last segment. *)
Lemma skills_fallback_needs_three_segments :
  split section_pattern one_header_text = ["John"; "cook at diner"]
  /\ has_skills_token "John" = false
  /\ snd (extract_experience_and_skills one_header_text []) = ""
  /\ take 500 (strip (last_of (split section_pattern one_header_text) ""))
     = "cook at diner".
Proof. vm_compute. repeat split. Qed.

(** C8, amended.  Both outputs have at most 500 characters.  The skills
    text is the stripped, truncated segment that follows the first segment
    holding SKILLS or QUALIFICATIONS in any case; when there is no such
    segment with a successor, or that text is empty, it is the stripped,
    truncated last segment if the split has more than two segments, and
    empty otherwise.  A segment holds the token when its lower-case form
    contains "skills" or "qualifications". *)
Theorem extract_experience_and_skills_spec (text : string)
  (keywords : list string) :
  let sections := split section_pattern text in
  let experience := fst (extract_experience_and_skills text keywords) in
  let skills_text := snd (extract_experience_and_skills text keywords) in
  String.length experience <= 500
  /\ String.length skills_text <= 500
  /\ (forall j seg, first_token_boundary sections j seg ->
        take 500 (strip seg) <> "" -> skills_text = take 500 (strip seg))
  /\ (forall j seg, first_token_boundary sections j seg ->
        take 500 (strip seg) = "" ->
        skills_text = last_segment_fallback sections)
  /\ (no_token_boundary sections ->
        skills_text = last_segment_fallback sections)
  /\ (forall segment,
        has_skills_token segment =
          contains "skills" (lower segment)
          || contains "qualifications" (lower segment)).
Proof.
  cbv zeta. unfold extract_experience_and_skills. cbv zeta. cbn [fst snd].
  set (sections := split section_pattern text).
  repeat apply conj; [ | | | | | apply has_skills_token_contains].
  - destruct (1 <? List.length sections)%nat; [apply take_length | cbn; lia].
  - destruct (is_empty _ && _)%bool; [apply take_length |].
    assert (Hloop : forall rest i,
      String.length (skills_loop sections i rest) <= 500).
    { induction rest as [|x rest IH]; intro i; cbn [skills_loop];
        [cbn; lia |].
      destruct (_ && _)%bool; [apply take_length | apply IH]. }
    apply Hloop.
  - intros j seg Hb Hne.
    rewrite (skills_loop_break sections j seg Hb sections 0 eq_refl)
      by (try lia; intros; now apply Hb).
    destruct (is_empty (take 500 (strip seg))) eqn:E; [| reflexivity].
    apply is_empty_true in E. contradiction.
  - intros j seg Hb He.
    rewrite (skills_loop_break sections j seg Hb sections 0 eq_refl)
      by (try lia; intros; now apply Hb).
    rewrite He. cbn [is_empty andb]. unfold last_segment_fallback.
    now destruct (2 <? List.length sections)%nat.
  - intro Hno. rewrite (skills_loop_no_break sections Hno sections 0 eq_refl).
    cbn [is_empty andb]. unfold last_segment_fallback.
    now destruct (2 <? List.length sections)%nat.
Qed.

End Sections.


(* ------------------------------------------------------------------ *)
(** ** Text that is only white space *)

Section Whitespace.

Ltac by_cases_on c :=
  destruct c as [[] [] [] [] [] [] [] []]; vm_compute; intros;
  first [reflexivity | discriminate].

Lemma space_not_email_local (c : ascii) :
  is_space c = true -> email_local c = false.
Proof. by_cases_on c. Qed.

Lemma space_not_digit (c : ascii) : is_space c = true -> is_digit c = false.
Proof. by_cases_on c. Qed.

Lemma space_not_plus (c : ascii) :
  is_space c = true -> Ascii.eqb "+" c = false.
Proof. by_cases_on c. Qed.

Lemma space_not_paren (c : ascii) :
  is_space c = true -> Ascii.eqb "(" c = false.
Proof. by_cases_on c. Qed.

Lemma space_not_letter (c x : ascii) :
  is_alpha x = true -> is_space c = true ->
  Ascii.eqb (lower_char c) (lower_char x) = false.
Proof.
  intros Hx Hc. apply Ascii.eqb_neq. intro E.
  assert (Hl : is_space (lower_char c) = true)
    by (revert Hc; by_cases_on c).
  assert (Hn : is_space (lower_char x) = false)
    by (revert Hx; by_cases_on x).
  congruence.
Qed.

Lemma space_lower_char (c : ascii) :
  is_space c = true -> lower_char c = c.
Proof. by_cases_on c. Qed.

Lemma nonspace_lower_char (c : ascii) :
  is_space c = false -> is_space (lower_char c) = false.
Proof. by_cases_on c. Qed.

Lemma all_space_lower (s : string) :
  all_space s = true -> lower s = s.
Proof.
  induction s as [|c s IH]; cbn; [reflexivity |].
  intro H. apply andb_true_iff in H as [Hc Hs].
  now rewrite space_lower_char, IH.
Qed.

Lemma all_space_lstrip (s : string) : all_space s = true -> lstrip s = "".
Proof.
  induction s as [|c s IH]; cbn; [reflexivity |].
  intro H. apply andb_true_iff in H as [-> Hs]. now apply IH.
Qed.

Lemma all_space_strip (s : string) : all_space s = true -> strip s = "".
Proof. intro H. unfold strip. now rewrite all_space_lstrip. Qed.

(** The first character of a stripped text is not white space. *)
Lemma lstrip_head (s : string) :
  match lstrip s with
  | String c _ => is_space c = false
  | EmptyString => True
  end.
Proof.
  induction s as [|c s IH]; cbn; [exact I |].
  destruct (is_space c) eqn:E; [exact IH | exact E].
Qed.

Lemma rstrip_head (s : string) :
  match rstrip s with
  | String c _ => exists t, s = String c t
  | EmptyString => True
  end.
Proof.
  destruct s as [|c s]; cbn; [exact I |].
  destruct (rstrip s); [destruct (is_space c) |]; eauto; exact I.
Qed.

Lemma strip_head (s : string) :
  match strip s with
  | String c _ => is_space c = false
  | EmptyString => True
  end.
Proof.
  unfold strip. pose proof (lstrip_head s) as Hl.
  pose proof (rstrip_head (lstrip s)) as Hr.
  destruct (rstrip (lstrip s)) as [|c r]; [exact I |].
  destruct Hr as [t Ht]. now rewrite Ht in Hl.
Qed.

(** A word that starts with a character that is not white space does not
    occur in white space. *)
Lemma contains_in_spaces (c : ascii) (p s : string) :
  is_space c = false -> all_space s = true ->
  contains (String c p) s = false.
Proof.
  intros Hc. induction s as [|x s IH]; cbn; [reflexivity |].
  intro H. apply andb_true_iff in H as [Hx Hs]. rewrite (IH Hs).
  destruct (Ascii.eqb_spec c x) as [-> |]; [congruence | reflexivity].
Qed.

Lemma load_keywords_nonblank (keywords_file : option (list string)) :
  Forall starts_nonspace (load_keywords keywords_file).
Proof.
  destruct keywords_file as [lines |]; cbn [load_keywords].
  - apply Forall_forall. intros k Hk.
    apply in_map_iff in Hk as (line & <- & Hline).
    apply filter_In in Hline as [_ Hne].
    pose proof (strip_head line) as Hh.
    destruct (strip line) as [|c r]; [discriminate |].
    exists (lower_char (lower_char c)), (lower (lower r)).
    split; [reflexivity |]. now do 2 apply nonspace_lower_char.
  - unfold default_keywords.
    repeat constructor; eexists; eexists; split; reflexivity.
Qed.

Lemma keyword_loop_spaces (text : string) (keywords : list string) :
  all_space text = true -> Forall starts_nonspace keywords ->
  forall count acc,
    keyword_loop text keywords count acc = (count, acc).
Proof.
  intros Ht Hk. induction Hk as [|k ks (c & rest & Hl & Hc) _ IH];
    intros count acc; cbn [keyword_loop]; [reflexivity |].
  rewrite Hl, (contains_in_spaces c rest text Hc Ht). apply IH.
Qed.

End Whitespace.

Section WhitespaceMatching.

Lemma all_space_tail (c : ascii) (s : string) :
  all_space (String c s) = true -> is_space c = true /\ all_space s = true.
Proof. cbn. intro H. now apply andb_true_iff in H. Qed.

(** A repetition that needs one more character fails where none of the
    class follows. *)
Lemma rep_greedy_needs_one (p : ascii -> bool) (lo : nat) (hi : option nat)
  (prev : option ascii) (s : string) (n : nat) (k : cont) :
  match s with String c _ => p c = false | EmptyString => True end ->
  rep_greedy p (S lo) hi prev s n k = None.
Proof.
  intro H. destruct s as [|c s]; cbn [rep_greedy].
  - now destruct hi as [[|h]|].
  - rewrite H. now destruct hi as [[|h]|].
Qed.

(** An optional repetition matches nothing where none of the class
    follows. *)
Lemma rep_greedy_takes_none (p : ascii -> bool) (hi : option nat)
  (prev : option ascii) (s : string) (n : nat) (k : cont) :
  match s with String c _ => p c = false | EmptyString => True end ->
  rep_greedy p 0 hi prev s n k = k prev s n.
Proof.
  intro H. destruct s as [|c s]; cbn [rep_greedy].
  - now destruct hi as [[|h]|].
  - rewrite H. now destruct hi as [[|h]|].
Qed.

(** Repeating over white space fails when what follows fails on every
    white space text. *)
Lemma rep_greedy_spaces (p : ascii -> bool) (k : cont) :
  (forall prev t n, all_space t = true -> k prev t n = None) ->
  forall s lo hi prev n, all_space s = true ->
    rep_greedy p lo hi prev s n k = None.
Proof.
  intro Hk. induction s as [|c s IH]; intros lo hi prev n Hs.
  - cbn [rep_greedy]. destruct hi as [[|h]|], lo; auto.
  - apply all_space_tail in Hs as [Hc Hs']. cbn [rep_greedy].
    assert (Hstop : match lo with
                    | 0 => k prev (String c s) n
                    | S _ => None
                    end = None).
    { destruct lo; [| reflexivity]. apply Hk. cbn. now rewrite Hc, Hs'. }
    rewrite Hstop. destruct hi as [[|h]|]; [reflexivity | |];
      (destruct (p c); [| reflexivity]); now rewrite IH.
Qed.

Lemma head_class_false (p : ascii -> bool) (s : string) :
  (forall c, is_space c = true -> p c = false) -> all_space s = true ->
  match s with String c _ => p c = false | EmptyString => True end.
Proof.
  intros Hp Hs. destruct s as [|c s]; [exact I |].
  apply all_space_tail in Hs as [Hc _]. now apply Hp.
Qed.

Lemma email_not_in_spaces (prev : option ascii) (s : string) :
  all_space s = true -> match_here email_pattern prev s = None.
Proof.
  intro Hs. unfold match_here, email_pattern. cbn [seqs run].
  destruct (xorb _ _); [| reflexivity].
  apply rep_greedy_needs_one.
  now apply head_class_false; [apply space_not_email_local |].
Qed.

Lemma phone_not_in_spaces (prev : option ascii) (s : string) :
  all_space s = true -> match_here phone_pattern prev s = None.
Proof.
  intro Hs. unfold match_here, phone_pattern, opt. cbn [seqs run lit].
  destruct (xorb _ _); [| reflexivity].
  assert (Hplus : match s with
                  | String c _ => Ascii.eqb "+" c = false
                  | EmptyString => True
                  end)
    by now apply head_class_false; [apply space_not_plus |].
  assert (Hrest : rep_greedy (Ascii.eqb "(") 0 (Some 1) prev s 0
            (fun prev' s' n' => rep_greedy is_digit 3 (Some 3) prev' s' n'
              (fun prev'0 s'0 n'0 =>
                 rep_greedy (Ascii.eqb ")") 0 (Some 1) prev'0 s'0 n'0
                (fun prev'1 s'1 n'1 =>
                   rep_greedy phone_sep 0 (Some 1) prev'1 s'1 n'1
                  (fun prev'2 s'2 n'2 =>
                     rep_greedy is_digit 3 (Some 3) prev'2 s'2 n'2
                    (fun prev'3 s'3 n'3 =>
                       rep_greedy phone_sep 0 (Some 1) prev'3 s'3 n'3
                      (fun prev'4 s'4 n'4 =>
                         rep_greedy is_digit 4 (Some 4) prev'4 s'4 n'4
                        (fun prev'5 s'5 n'5 =>
                           if xorb (word_before prev'5) (word_after s'5)
                           then Some n'5 else None))))))) = None).
  { rewrite rep_greedy_takes_none
      by now apply head_class_false; [apply space_not_paren |].
    apply rep_greedy_needs_one.
    now apply head_class_false; [apply space_not_digit |]. }
  destruct s as [|c s]; cbn [first_some].
  - exact Hrest.
  - rewrite Hplus. cbn [first_some]. exact Hrest.
Qed.

Lemma word_i_not_in_spaces (x : ascii) (w : string) (prev : option ascii)
  (s : string) (n : nat) (k : cont) :
  is_alpha x = true -> all_space s = true ->
  run (word_i (String x w)) prev s n k = None.
Proof.
  intros Hx Hs. cbn [word_i run lit_i]. destruct s as [|c s]; [reflexivity |].
  apply all_space_tail in Hs as [Hc _].
  now rewrite (space_not_letter c x Hx Hc).
Qed.

Lemma section_header_not_in_spaces (prev : option ascii) (s : string)
  (n : nat) (k : cont) :
  all_space s = true ->
  run (alts (map word_i section_headers)) prev s n k = None.
Proof.
  intro Hs. unfold section_headers. cbn [map alts run].
  rewrite !word_i_not_in_spaces by (exact Hs || reflexivity).
  reflexivity.
Qed.

Lemma section_not_in_spaces (prev : option ascii) (s : string) :
  all_space s = true -> match_here section_pattern prev s = None.
Proof.
  intro Hs. unfold match_here, section_pattern. cbn [seqs run lit].
  destruct s as [|c s]; [reflexivity |].
  apply all_space_tail in Hs as [_ Hs].
  destruct (Ascii.eqb newline c); [| reflexivity].
  apply rep_greedy_spaces; [| exact Hs].
  intros prev' t n' Ht. now apply section_header_not_in_spaces.
Qed.

Lemma search_from_no_match (r : regex) (s : string) :
  (forall prev t, all_space t = true -> match_here r prev t = None) ->
  forall prev, all_space s = true -> search_from r prev s = None.
Proof.
  intro Hr. induction s as [|c s IH]; intros prev Hs; cbn [search_from];
    rewrite (Hr _ _ Hs); [reflexivity |].
  apply all_space_tail in Hs as [_ Hs]. now apply IH.
Qed.

Lemma split_from_no_match (r : regex) (s : string) :
  (forall prev t, all_space t = true -> match_here r prev t = None) ->
  forall prev seg, all_space s = true ->
    split_from r prev s 0 seg = [seg ++ s].
Proof.
  intro Hr. induction s as [|c s IH]; intros prev seg Hs; cbn [split_from].
  - f_equal. induction seg as [|x seg IHs]; cbn; [reflexivity |].
    now rewrite <- IHs.
  - rewrite (Hr _ _ Hs). apply all_space_tail in Hs as [_ Hs].
    rewrite (IH _ _ Hs). f_equal.
    induction seg as [|x seg IHs]; cbn; [reflexivity |]. now rewrite IHs.
Qed.

End WhitespaceMatching.

(* ------------------------------------------------------------------ *)
(** ** The record builder on empty and blank text *)

Section Builder.

Lemma extract_contact_info_spaces (text : string) :
  all_space text = true -> extract_contact_info text = ("", "", "").
Proof.
  intro Hs. unfold extract_contact_info. cbv zeta. unfold search.
  rewrite (search_from_no_match email_pattern text email_not_in_spaces _ Hs).
  rewrite (search_from_no_match phone_pattern text phone_not_in_spaces _ Hs).
  now rewrite (all_space_strip text Hs).
Qed.

Lemma extract_sections_spaces (text : string) (keywords : list string) :
  all_space text = true ->
  extract_experience_and_skills text keywords = ("", "").
Proof.
  intro Hs. unfold extract_experience_and_skills, split. cbv zeta.
  now rewrite (split_from_no_match section_pattern text
                 section_not_in_spaces _ _ Hs).
Qed.

Lemma count_keywords_spaces (text : string) (keywords : list string) :
  all_space text = true -> Forall starts_nonspace keywords ->
  count_relevant_keywords text keywords = (0%Z, []).
Proof.
  intros Hs Hk. unfold count_relevant_keywords.
  rewrite (all_space_lower text Hs). now apply keyword_loop_spaces.
Qed.

(** C10. The builder gives the skip signal exactly when the extracted
    text is the empty string.  For a text that is not empty and holds only
    white space it still builds a record, whose name, email, phone,
    experience and skills are empty and whose keyword count, with the
    keywords that [load_keywords] returns, is 0. *)
Theorem process_resume_blank_text (fs : pdf_store) (pdf_path : string)
  (keywords_file : option (list string)) :
  let text := extract_text_from_pdf fs pdf_path in
  (forall keywords, process_resume fs pdf_path keywords = None <-> text = "")
  /\ (text <> "" -> all_space text = true ->
      exists r,
        process_resume fs pdf_path (load_keywords keywords_file) = Some r
        /\ name r = "" /\ email r = "" /\ phone r = ""
        /\ experience r = "" /\ skills r = ""
        /\ keyword_count r = 0%Z /\ is_relevant r = false).
Proof.
  cbv zeta. split.
  - intro keywords. apply process_resume_none.
  - intros Hne Hs. unfold process_resume. cbv zeta.
    destruct (extract_text_from_pdf fs pdf_path) as [|c text] eqn:Et;
      [contradiction |].
    cbn [is_empty].
    rewrite (extract_contact_info_spaces _ Hs).
    rewrite (extract_sections_spaces _ _ Hs).
    rewrite (count_keywords_spaces _ _ Hs (load_keywords_nonblank _)).
    eexists. split; [reflexivity |]. cbn. repeat split.
Qed.

Lemma process_resume_blank_text_witness :
  let fs := sample_store "   " in
  extract_text_from_pdf fs "./input_cv/blank.pdf" <> ""
  /\ all_space (extract_text_from_pdf fs "./input_cv/blank.pdf") = true
  /\ exists r,
       process_resume fs "./input_cv/blank.pdf" (load_keywords None) = Some r
       /\ name r = "" /\ email r = "" /\ phone r = ""
       /\ experience r = "" /\ skills r = ""
       /\ keyword_count r = 0%Z /\ is_relevant r = false.
Proof.
  cbv zeta.
  assert (Hne : extract_text_from_pdf (sample_store "   ")
                  "./input_cv/blank.pdf" <> "") by discriminate.
  assert (Hs : all_space (extract_text_from_pdf (sample_store "   ")
                  "./input_cv/blank.pdf") = true) by reflexivity.
  split; [exact Hne |]. split; [exact Hs |].
  exact (proj2 (process_resume_blank_text (sample_store "   ")
                  "./input_cv/blank.pdf" None) Hne Hs).
Defined.

End Builder.

(* ------------------------------------------------------------------ *)
(** ** Instances *)

Section Instances.

Lemma calculate_priority_bounds_witness :
  (0 <= keyword_count (resume (unknown_row sample_resume)))%Z
  /\ (0 <= calculate_priority (unknown_row sample_resume)
      <= 2 + 5 + 4 + 3 + 4)%Z.
Proof.
  assert (H : (0 <= keyword_count (resume (unknown_row sample_resume)))%Z)
    by (cbn; lia).
  split; [exact H |].
  exact (calculate_priority_bounds (unknown_row sample_resume) H).
Defined.

Lemma unreadable_document_is_skipped_witness :
  let fs := fun path =>
    if String.eqb path "./input_cv/bad.pdf" then Raises
    else Pages ["a@x.com cook and Cashier"] in
  extract_text_from_pdf fs (INPUT_DIR ++ "bad.pdf") = ""
  /\ monitor_input_folder fs (["a.pdf"] ++ "bad.pdf" :: ["b.pdf"])
       ["cook"; "cashier"] =
     monitor_input_folder fs (["a.pdf"] ++ ["b.pdf"]) ["cook"; "cashier"].
Proof.
  cbv zeta.
  set (fs := fun path : string =>
    if String.eqb path "./input_cv/bad.pdf" then Raises
    else Pages ["a@x.com cook and Cashier"]).
  assert (H : extract_text_from_pdf fs (INPUT_DIR ++ "bad.pdf") = "")
    by reflexivity.
  split; [exact H |].
  exact (proj1 (unreadable_document_is_skipped fs ["cook"; "cashier"]
                  ["a.pdf"] ["b.pdf"] "bad.pdf" H)).
Defined.

Lemma availability_contribution_witness :
  lower "Full Availability" = "full availability"
  /\ calculate_priority
       (with_availability (unknown_row sample_resume)
          (Val "Full Availability")) =
     (calculate_priority
        (with_availability (unknown_row sample_resume) Absent) + 4)%Z.
Proof.
  assert (H : lower "Full Availability" = "full availability")
    by reflexivity.
  split; [exact H |].
  exact (proj1 (availability_contribution (unknown_row sample_resume))
           "Full Availability" H).
Defined.

Lemma merge_is_left_join_witness :
  exists out,
    merged_df [sample_resume] (Some sample_survey) = Returns out
    /\ List.length [sample_resume] <= List.length out.
Proof.
  eexists.
  refine ((fun H => conj H
             (proj1 (proj2 (proj2
                (proj1 (merge_is_left_join [sample_resume]
                          (Some sample_survey)) _ H))))) _).
  reflexivity.
Defined.

Lemma extract_experience_and_skills_spec_witness :
  first_token_boundary (split section_pattern skills_token_text) 0
    "cook at diner"
  /\ snd (extract_experience_and_skills skills_token_text []) =
     "cook at diner".
Proof.
  assert (H : first_token_boundary (split section_pattern skills_token_text)
                0 "cook at diner").
  { repeat split. intros j' Hj. inversion Hj. }
  split; [exact H |].
  exact (proj1 (proj2 (proj2
           (extract_experience_and_skills_spec skills_token_text [])))
           0 "cook at diner" H
           (fun E : take 500 (strip "cook at diner") = "" =>
              match E in (_ = y)
                return (match y with EmptyString => False | _ => True end)
              with eq_refl => I end)).
Defined.

End Instances.

(* ------------------------------------------------------------------ *)
(** ** More on scoring *)

Section ScoringTables.

Local Open Scope Z_scope.

Lemma with_courses_sum (row : MergedRow) (c : cell) :
  calculate_priority (with_courses row c) =
    calculate_priority (with_courses row Absent) + courses_points c.
Proof.
  rewrite !calculate_priority_sum.
  cbn [with_courses resume availability courses visa].
  change (courses_points Absent) with 0. lia.
Qed.

Lemma with_visa_sum (row : MergedRow) (c : cell) :
  calculate_priority (with_visa row c) =
    calculate_priority (with_visa row Absent) + visa_points c.
Proof.
  rewrite !calculate_priority_sum.
  cbn [with_visa resume availability courses visa].
  change (visa_points Absent) with 0. lia.
Qed.

(** X1. Training is scored by the first category that matches, once:
    a value that mentions food handling or HACCP adds 3 whatever else it
    mentions; otherwise food safety or customer service adds 2; otherwise
    any value other than "none" and "unknown" adds 1; "none", "unknown"
    and a missing value add nothing. *)
Theorem courses_contribution (row : MergedRow) :
  let base := calculate_priority (with_courses row Absent) in
  (forall v,
      contains "food handling" (lower v) = true
      \/ contains "haccp" (lower v) = true ->
      calculate_priority (with_courses row (Val v)) = base + 3)
  /\ (forall v,
      contains "food handling" (lower v) = false ->
      contains "haccp" (lower v) = false ->
      contains "food safety" (lower v) = true
      \/ contains "customer service" (lower v) = true ->
      calculate_priority (with_courses row (Val v)) = base + 2)
  /\ (forall v,
      contains "food handling" (lower v) = false ->
      contains "haccp" (lower v) = false ->
      contains "food safety" (lower v) = false ->
      contains "customer service" (lower v) = false ->
      lower v <> "none" -> lower v <> "unknown" ->
      calculate_priority (with_courses row (Val v)) = base + 1)
  /\ (forall v, lower v = "none" \/ lower v = "unknown" ->
      calculate_priority (with_courses row (Val v)) = base)
  /\ calculate_priority (with_courses row NaN) = base.
Proof.
  cbv zeta. repeat apply conj; intros; rewrite with_courses_sum;
    unfold courses_points; cbn [present].
  - destruct H as [-> | ->]; [| rewrite orb_true_r]; reflexivity.
  - rewrite H, H0. cbn [orb].
    destruct H1 as [-> | ->]; [| rewrite orb_true_r]; reflexivity.
  - rewrite H, H0, H1, H2. cbn [orb].
    destruct (String.eqb_spec (lower v) "none"); [contradiction |].
    destruct (String.eqb_spec (lower v) "unknown"); [contradiction |].
    reflexivity.
  - destruct H as [-> | ->]; cbn; lia.
  - lia.
Qed.

Lemma courses_contribution_witness :
  (contains "food handling" (lower "HACCP and Customer Service") = true
   \/ contains "haccp" (lower "HACCP and Customer Service") = true)
  /\ calculate_priority
       (with_courses (unknown_row sample_resume)
          (Val "HACCP and Customer Service")) =
     calculate_priority (with_courses (unknown_row sample_resume) Absent) + 3.
Proof.
  assert (H : contains "food handling" (lower "HACCP and Customer Service")
              = true
              \/ contains "haccp" (lower "HACCP and Customer Service") = true)
    by (right; reflexivity).
  split; [exact H |].
  exact (proj1 (courses_contribution (unknown_row sample_resume))
           "HACCP and Customer Service" H).
Defined.

(** X2. The visa status is compared as a whole, up to case: "irish" adds
    4, "stamp 4" and "ue" add 3, "stamp 1g" adds 2, "stamp 2" adds 1, and
    every other value, "stamp 1" and "Unknown" among them, adds nothing,
    as does a missing value. *)
Theorem visa_contribution (row : MergedRow) :
  let base := calculate_priority (with_visa row Absent) in
  (forall v, lower v = "irish" ->
     calculate_priority (with_visa row (Val v)) = base + 4)
  /\ (forall v, lower v = "stamp 4" \/ lower v = "ue" ->
     calculate_priority (with_visa row (Val v)) = base + 3)
  /\ (forall v, lower v = "stamp 1g" ->
     calculate_priority (with_visa row (Val v)) = base + 2)
  /\ (forall v, lower v = "stamp 2" ->
     calculate_priority (with_visa row (Val v)) = base + 1)
  /\ (forall v, lower v <> "irish" -> lower v <> "stamp 4" ->
      lower v <> "ue" -> lower v <> "stamp 1g" -> lower v <> "stamp 2" ->
     calculate_priority (with_visa row (Val v)) = base)
  /\ calculate_priority (with_visa row NaN) = base.
Proof.
  cbv zeta. repeat apply conj; intros; rewrite with_visa_sum;
    unfold visa_points; cbn [present].
  - rewrite H. reflexivity.
  - destruct H as [-> | ->]; reflexivity.
  - rewrite H. reflexivity.
  - rewrite H. reflexivity.
  - destruct (String.eqb_spec (lower v) "irish"); [contradiction |].
    destruct (String.eqb_spec (lower v) "stamp 4"); [contradiction |].
    destruct (String.eqb_spec (lower v) "ue"); [contradiction |].
    destruct (String.eqb_spec (lower v) "stamp 1g"); [contradiction |].
    destruct (String.eqb_spec (lower v) "stamp 2"); [contradiction |].
    cbn. lia.
  - lia.
Qed.

Lemma visa_contribution_witness :
  lower "Irish" = "irish"
  /\ calculate_priority (with_visa (unknown_row sample_resume) (Val "Irish"))
     = calculate_priority (with_visa (unknown_row sample_resume) Absent) + 4.
Proof.
  assert (H : lower "Irish" = "irish") by reflexivity.
  split; [exact H |].
  exact (proj1 (visa_contribution (unknown_row sample_resume)) "Irish" H).
Defined.

(** X3. The classifier is monotone: a higher score never gives a lower
    tier. *)
Theorem get_priority_level_monotone (s1 s2 : Z) :
  s1 <= s2 ->
  (tier_rank (get_priority_level s1) <= tier_rank (get_priority_level s2))%nat.
Proof.
  intro H. unfold get_priority_level.
  destruct (Z.leb_spec 10 s1), (Z.leb_spec 10 s2),
    (Z.leb_spec 6 s1), (Z.leb_spec 6 s2); cbn; lia.
Qed.

Lemma get_priority_level_monotone_witness :
  (tier_rank (get_priority_level 5) <= tier_rank (get_priority_level 12))%nat.
Proof. apply get_priority_level_monotone. lia. Defined.

(** X4. The score does not depend on the case of the survey values: rows
    with the same record whose survey cells agree up to case get the same
    score. *)
Theorem calculate_priority_case_insensitive (row1 row2 : MergedRow) :
  resume row1 = resume row2 ->
  same_up_to_case (availability row1) (availability row2) ->
  same_up_to_case (courses row1) (courses row2) ->
  same_up_to_case (visa row1) (visa row2) ->
  calculate_priority row1 = calculate_priority row2.
Proof.
  intros Hr Ha Hc Hv. rewrite !calculate_priority_sum, Hr.
  unfold availability_points, courses_points, visa_points.
  destruct (availability row1), (availability row2); try contradiction;
    destruct (courses row1), (courses row2); try contradiction;
    destruct (visa row1), (visa row2); try contradiction;
    cbn [present same_up_to_case] in *;
    rewrite ?Ha, ?Hc, ?Hv; reflexivity.
Qed.

Lemma calculate_priority_case_insensitive_witness :
  calculate_priority
    {| resume := sample_resume; availability := Val "MORNING";
       courses := Val "Haccp"; visa := Val "IRISH" |} =
  calculate_priority
    {| resume := sample_resume; availability := Val "morning";
       courses := Val "HACCP"; visa := Val "irish" |}.
Proof.
  apply calculate_priority_case_insensitive; reflexivity.
Defined.

End ScoringTables.

(* ------------------------------------------------------------------ *)
(** ** Classification of a batch *)

Section Classification.

Local Open Scope Z_scope.

Lemma in_classify_candidates (resumes_df : list ResumeRecord)
  (survey_df : option SurveyFrame) (out : list ClassifiedCandidate)
  (c : ClassifiedCandidate) :
  classify_candidates resumes_df survey_df = Returns out ->
  In c out ->
  exists rows,
    merged_df resumes_df survey_df = Returns rows
    /\ In (merged c) rows
    /\ priority_score c = calculate_priority (merged c)
    /\ priority c = get_priority_level (priority_score c).
Proof.
  unfold classify_candidates.
  destruct (merged_df resumes_df survey_df) as [rows|]; [| discriminate].
  intros H Hc. injection H as <-.
  apply in_map_iff in Hc as (row & <- & Hrow). exists rows. cbn. auto.
Qed.

Lemma classified_from_batch (resumes_df : list ResumeRecord)
  (survey_df : option SurveyFrame) (out : list ClassifiedCandidate)
  (c : ClassifiedCandidate) :
  classify_candidates resumes_df survey_df = Returns out ->
  In c out ->
  In (resume (merged c)) resumes_df.
Proof.
  intros H Hc.
  destruct (in_classify_candidates _ _ _ _ H Hc) as (rows & E & Hrow & _).
  now apply (merged_rows_from_batch _ _ _ _ E).
Qed.

Lemma classify_candidates_returns (resumes_df : list ResumeRecord)
  (survey_df : option SurveyFrame) (rows : list MergedRow) :
  merged_df resumes_df survey_df = Returns rows ->
  exists out, classify_candidates resumes_df survey_df = Returns out
    /\ forall row, In row rows -> exists c, In c out /\ merged c = row.
Proof.
  intro E. unfold classify_candidates. rewrite E. eexists.
  split; [reflexivity |]. intros row Hrow. eexists. split.
  - apply in_map. exact Hrow.
  - reflexivity.
Qed.

(** X5. When the survey source is absent or has no rows, the
    classification returns and every candidate is scored from the record
    alone plus the one point of the "Unknown" availability: the score is
    at most 8 and no candidate is High. *)
Theorem no_survey_never_high (resumes_df : list ResumeRecord)
  (survey_df : option SurveyFrame) :
  no_survey survey_df = true ->
  exists out,
    classify_candidates resumes_df survey_df = Returns out
    /\ forall c, In c out ->
         priority_score c =
           relevance_points (resume (merged c))
           + keyword_points (resume (merged c)) + 1
         /\ priority_score c <= 8
         /\ priority c <> "High".
Proof.
  intro Hno.
  destruct (merged_df_cases resumes_df survey_df)
    as [[_ Em] | (survey & _ & Hf & _)]; [| congruence].
  destruct (classify_candidates_returns _ _ _ Em) as (out & Eout & _).
  exists out. split; [exact Eout |]. intros c Hc.
  destruct (in_classify_candidates _ _ _ _ Eout Hc)
    as (rows & Er & Hrow & Hs & Hp).
  rewrite Em in Er. injection Er as <-.
  apply unknown_rows in Hrow as (_ & Ha & Hco & Hv).
  assert (E : priority_score c =
    relevance_points (resume (merged c))
    + keyword_points (resume (merged c)) + 1).
  { rewrite Hs, calculate_priority_sum, Ha, Hco, Hv.
    change (availability_points (Val "Unknown")) with 1.
    change (courses_points (Val "Unknown")) with 0.
    change (visa_points (Val "Unknown")) with 0. lia. }
  assert (B : priority_score c <= 8).
  { rewrite E. unfold relevance_points, keyword_points.
    destruct (is_relevant _); lia. }
  repeat split; [exact E | exact B |].
  rewrite Hp. unfold get_priority_level.
  destruct (Z.leb_spec 10 (priority_score c)); [lia |].
  destruct (6 <=? priority_score c); discriminate.
Qed.

Lemma no_survey_never_high_witness :
  exists out,
    classify_candidates [sample_resume] None = Returns out
    /\ forall c, In c out -> priority_score c <= 8 /\ priority c <> "High".
Proof.
  destruct (no_survey_never_high [sample_resume] None eq_refl)
    as (out & E & H).
  exists out. split; [exact E |]. intros c Hc.
  exact (proj2 (H c Hc)).
Defined.

(** X6. The join is one-to-many and keeps the order of the batch: with a
    survey that has rows and whose email column holds text, the merge
    returns and lists each record once per survey row with the same
    email, and once when there is none. *)
Theorem merge_multiplicity (resumes_df : list ResumeRecord)
  (survey : SurveyFrame) :
  frame_empty survey = false ->
  email_is_text survey = true ->
  exists out,
    merged_df resumes_df (Some survey) = Returns out
    /\ map resume out =
       flat_map (fun r => repeat r (Nat.max 1 (match_count r survey)))
         resumes_df.
Proof.
  intros Hne Ht. exists (left_join_rows resumes_df survey). split.
  - cbn [merged_df]. rewrite Hne. cbn [negb]. now apply merge_left_text.
  - unfold left_join_rows, match_count.
    induction resumes_df as [|r rs IH]; [reflexivity |].
    cbn [flat_map]. rewrite map_app, IH. f_equal.
    destruct (filter (key_matches (email r)) (sv_rows survey)) as [|m ms];
      [reflexivity |].
    rewrite map_map. cbn [resume].
    replace (Nat.max 1 (List.length (m :: ms))) with (List.length (m :: ms))
      by (cbn [List.length]; lia).
    generalize (m :: ms) as l.
    induction l as [|x l IHl]; cbn; [reflexivity | now rewrite IHl].
Qed.

Lemma merge_multiplicity_witness :
  exists out,
    merged_df [sample_resume] (Some sample_survey_twice) = Returns out
    /\ map resume out = [sample_resume; sample_resume].
Proof.
  exact (merge_multiplicity [sample_resume] sample_survey_twice
           eq_refl eq_refl).
Defined.

End Classification.

(* ------------------------------------------------------------------ *)
(** ** More on keywords and records *)

Section KeywordBounds.

Lemma filter_length_le_all {A : Type} (f : A -> bool) (l : list A) :
  List.length (filter f l) <= List.length l.
Proof.
  induction l as [|x l IH]; cbn; [lia |]. destruct (f x); cbn; lia.
Qed.

(** X7. Every record the builder produces has a keyword count between 0
    and the number of keywords it was given. *)
Theorem keyword_count_bounds (fs : pdf_store) (pdf_path : string)
  (keywords : list string) (r : ResumeRecord) :
  process_resume fs pdf_path keywords = Some r ->
  (0 <= keyword_count r <= Z.of_nat (List.length keywords))%Z.
Proof.
  intro H. apply process_resume_some in H as (_ & _ & _ & Hk & _).
  rewrite Hk, count_relevant_keywords_filter. cbn [fst].
  pose proof (filter_length_le_all
                (keyword_hit (extract_text_from_pdf fs pdf_path)) keywords).
  lia.
Qed.

Lemma keyword_count_bounds_witness :
  exists r,
    process_resume (sample_store "a@x.com cook and Cashier") "./input_cv/a.pdf"
      ["cook"; "cashier"; "waiter"] = Some r
    /\ (0 <= keyword_count r <= 3)%Z.
Proof.
  eexists. split; [reflexivity |].
  apply (keyword_count_bounds (sample_store "a@x.com cook and Cashier")
           "./input_cv/a.pdf" ["cook"; "cashier"; "waiter"]).
  reflexivity.
Defined.

(** X8. Matching is keyword by keyword: for a keyword list made of two
    parts the count is the sum of the counts and the matched keywords are
    those of the first part followed by those of the second.  A keyword
    listed twice is therefore counted and reported twice. *)
Theorem count_relevant_keywords_app (text : string)
  (keywords1 keywords2 : list string) :
  fst (count_relevant_keywords text (keywords1 ++ keywords2)) =
    (fst (count_relevant_keywords text keywords1)
     + fst (count_relevant_keywords text keywords2))%Z
  /\ snd (count_relevant_keywords text (keywords1 ++ keywords2)) =
    (snd (count_relevant_keywords text keywords1)
     ++ snd (count_relevant_keywords text keywords2))%list
  /\ (forall k, keyword_hit text k = true ->
        count_relevant_keywords text [k; k] = (2%Z, [k; k])).
Proof.
  rewrite !count_relevant_keywords_filter. cbn [fst snd].
  rewrite filter_app, length_app. repeat split; [lia |].
  intros k Hk. rewrite count_relevant_keywords_filter. cbn [filter].
  now rewrite Hk.
Qed.

Lemma count_relevant_keywords_app_witness :
  keyword_hit "Cook wanted" "cook" = true
  /\ count_relevant_keywords "Cook wanted" ["cook"; "cook"]
     = (2%Z, ["cook"; "cook"]).
Proof.
  assert (H : keyword_hit "Cook wanted" "cook" = true) by reflexivity.
  split; [exact H |].
  exact (proj2 (proj2 (count_relevant_keywords_app "Cook wanted" [] []))
           "cook" H).
Defined.

(** X9. From documents to scores: every candidate classified from the
    records of a batch has a score between 0 and 18, and a candidate whose
    record is marked relevant scores at least 4. *)
Theorem batch_scores_in_range (fs : pdf_store) (listing : list string)
  (keywords : list string) (survey_df : option SurveyFrame)
  (out : list ClassifiedCandidate) (c : ClassifiedCandidate) :
  classify_candidates (monitor_input_folder fs listing keywords) survey_df
    = Returns out ->
  In c out ->
  (0 <= priority_score c <= 18)%Z
  /\ (is_relevant (resume (merged c)) = true -> (4 <= priority_score c)%Z).
Proof.
  intros Hout Hc.
  pose proof (classified_from_batch _ _ _ _ Hout Hc) as Hin.
  destruct (in_classify_candidates _ _ _ _ Hout Hc) as (_ & _ & _ & Hs & _).
  rewrite monitor_input_folder_flat_map in Hin.
  apply in_flat_map in Hin as (f & _ & Hf). unfold batch_entry in Hf.
  destruct (process_resume fs (INPUT_DIR ++ f) keywords) as [d|] eqn:E;
    [| destruct Hf].
  destruct Hf as [Hd | []].
  pose proof (keyword_count_bounds _ _ _ _ E) as Hb.
  apply process_resume_some in E as (_ & _ & _ & _ & Hrel).
  rewrite Hd in Hb, Hrel.
  rewrite Hs, calculate_priority_sum.
  pose proof (availability_points_bounds (availability (merged c))).
  pose proof (courses_points_bounds (courses (merged c))).
  pose proof (visa_points_bounds (visa (merged c))).
  unfold relevance_points, keyword_points. rewrite Hrel.
  destruct (Z.leb_spec 2 (keyword_count (resume (merged c)))).
  - split; [lia |]. intros _. lia.
  - split; [lia |]. discriminate.
Qed.

Lemma batch_scores_in_range_witness :
  exists out c,
    classify_candidates
      (monitor_input_folder (sample_store "a@x.com cook and Cashier")
         ["a.pdf"] ["cook"; "cashier"]) None = Returns out
    /\ In c out
    /\ (0 <= priority_score c <= 18)%Z.
Proof.
  eexists. eexists.
  split; [reflexivity |].
  split; [cbv; left; reflexivity |].
  apply (batch_scores_in_range (sample_store "a@x.com cook and Cashier")
           ["a.pdf"] ["cook"; "cashier"] None _ _ eq_refl).
  cbv. left. reflexivity.
Defined.

End KeywordBounds.

(* ------------------------------------------------------------------ *)
(** ** Keyword file *)

Section KeywordFile.

Lemma lower_char_idempotent (c : ascii) :
  lower_char (lower_char c) = lower_char c.
Proof. destruct c as [[] [] [] [] [] [] [] []]; reflexivity. Qed.

Lemma lower_idempotent (s : string) : lower (lower s) = lower s.
Proof.
  induction s as [|c s IH]; cbn; [reflexivity |].
  now rewrite lower_char_idempotent, IH.
Qed.

Lemma lower_char_space (c : ascii) :
  is_space (lower_char c) = is_space c.
Proof. destruct c as [[] [] [] [] [] [] [] []]; reflexivity. Qed.

Lemma ends_nonspace_lower (s : string) :
  ends_nonspace (lower s) = ends_nonspace s.
Proof.
  induction s as [|c s IH]; [reflexivity |].
  cbn [lower ends_nonspace]. destruct s as [|d s].
  - cbn. now rewrite lower_char_space.
  - exact IH.
Qed.

Lemma rstrip_ends_nonspace (s : string) :
  rstrip s <> "" -> ends_nonspace (rstrip s) = true.
Proof.
  induction s as [|c s IH]; cbn [rstrip]; [congruence |].
  destruct (rstrip s) as [|d r] eqn:E.
  - destruct (is_space c) eqn:Hc; [congruence |]. intros _. cbn.
    now rewrite Hc.
  - intros _. cbn [ends_nonspace]. apply IH. discriminate.
Qed.

(** X10. The keywords read from a file are normalised: each one is not
    empty, is in lower case, and neither starts nor ends with white space;
    blank lines give no keyword.  Without a file the nine default
    keywords are used. *)
Theorem load_keywords_normalised :
  (forall lines k, In k (load_keywords (Some lines)) ->
     k <> ""
     /\ lower k = k
     /\ (exists c rest, k = String c rest /\ is_space c = false)
     /\ ends_nonspace k = true
     /\ exists line, In line lines /\ k = lower (strip line))
  /\ (forall lines line, In line lines -> strip line <> "" ->
        In (lower (strip line)) (load_keywords (Some lines)))
  /\ load_keywords None = default_keywords
  /\ List.length (load_keywords None) = 9.
Proof.
  repeat apply conj; [| | reflexivity | reflexivity].
  - intros lines k Hk. cbn [load_keywords] in Hk.
    apply in_map_iff in Hk as (line & <- & Hline).
    apply filter_In in Hline as [Hin Hne].
    pose proof (strip_head line) as Hh.
    assert (Hs : strip line <> "") by (destruct (strip line); discriminate).
    pose proof (rstrip_ends_nonspace (lstrip line) Hs) as He.
    fold (strip line) in He.
    destruct (strip line) as [|c r] eqn:E; [congruence |].
    repeat apply conj.
    + discriminate.
    + apply lower_idempotent.
    + exists (lower_char c), (lower r). split; [reflexivity |].
      now rewrite lower_char_space.
    + now rewrite ends_nonspace_lower.
    + exists line. split; [exact Hin | now rewrite E].
  - intros lines line Hin Hne. cbn [load_keywords].
    apply in_map_iff. exists line. split; [reflexivity |].
    apply filter_In. split; [exact Hin |].
    destruct (strip line); [congruence | reflexivity].
Qed.

Lemma load_keywords_normalised_witness :
  In "fast food" (load_keywords (Some ["  Fast Food "; "   "; "Cook"]))
  /\ lower "fast food" = "fast food".
Proof.
  assert (H : In "fast food"
                (load_keywords (Some ["  Fast Food "; "   "; "Cook"])))
    by (left; reflexivity).
  split; [exact H |].
  exact (proj1 (proj2 (proj1 load_keywords_normalised _ _ H))).
Defined.

End KeywordFile.

(* ------------------------------------------------------------------ *)
(** ** More on the batch *)

Section BatchFiles.

Lemma append_assoc_string (a b c : string) : (a ++ b) ++ c = a ++ b ++ c.
Proof. induction a as [|x a IH]; cbn; [reflexivity | now rewrite IH]. Qed.

Lemma basename_go_no_slash (f : string) :
  no_slash f = true -> forall cur, basename_go cur f = cur ++ f.
Proof.
  induction f as [|c f IH]; cbn [no_slash basename_go]; intros H cur.
  - induction cur as [|x cur IHc]; cbn; [reflexivity | now rewrite <- IHc].
  - apply andb_true_iff in H as [Hc Hf]. apply negb_true_iff in Hc.
    rewrite Hc, (IH Hf), append_assoc_string. reflexivity.
Qed.

Lemma file_name_record (fs : pdf_store) (keywords : list string)
  (pdf_file : string) (r : ResumeRecord) :
  no_slash pdf_file = true ->
  process_resume fs (INPUT_DIR ++ pdf_file) keywords = Some r ->
  file_name r = pdf_file.
Proof.
  intros Hns H. unfold process_resume in H. cbv zeta in H.
  destruct (is_empty _); [discriminate |].
  destruct (extract_contact_info _) as [[n e] ph].
  destruct (extract_experience_and_skills _ _) as [ex sk].
  destruct (count_relevant_keywords _ _) as [kc fk].
  injection H as <-. cbn [file_name].
  change (basename_go "" pdf_file = pdf_file).
  now apply basename_go_no_slash.
Qed.

(** X11. Each record carries the name of its document: for a listed name
    without a slash, the record built from [INPUT_DIR] joined with the name
    has that name as [file_name]. *)
Theorem file_name_is_listed_name (fs : pdf_store) (keywords : list string)
  (pdf_file : string) (r : ResumeRecord) :
  no_slash pdf_file = true ->
  process_resume fs (INPUT_DIR ++ pdf_file) keywords = Some r ->
  file_name r = pdf_file.
Proof.
  apply file_name_record.
Qed.

Lemma file_name_is_listed_name_witness :
  exists r,
    process_resume (sample_store "a@x.com cook") (INPUT_DIR ++ "ann.pdf")
      ["cook"] = Some r
    /\ file_name r = "ann.pdf".
Proof.
  eexists.
  refine ((fun H => conj H
             (file_name_is_listed_name (sample_store "a@x.com cook")
                ["cook"] "ann.pdf" _ eq_refl H)) _).
  reflexivity.
Defined.

(** X12. Only names that end in ".pdf", in any case, are processed: the
    result of the batch is the same with the other names removed, it has
    at most one record per such name, and an empty or PDF-free folder
    gives no record. *)
Theorem only_pdf_files_processed (fs : pdf_store) (listing : list string)
  (keywords : list string) :
  monitor_input_folder fs listing keywords =
    monitor_input_folder fs (filter is_pdf listing) keywords
  /\ List.length (monitor_input_folder fs listing keywords)
     <= List.length (filter is_pdf listing)
  /\ (forall other, is_pdf other = false ->
      forall before after,
        monitor_input_folder fs (before ++ other :: after) keywords =
        monitor_input_folder fs (before ++ after) keywords)
  /\ (filter is_pdf listing = [] ->
      monitor_input_folder fs listing keywords = []).
Proof.
  repeat apply conj.
  - rewrite !monitor_input_folder_flat_map. f_equal.
    induction listing as [|f l IH]; cbn [filter]; [reflexivity |].
    destruct (is_pdf f) eqn:E; cbn [filter]; rewrite ?E; now rewrite <- IH.
  - rewrite monitor_input_folder_flat_map.
    induction (filter is_pdf listing) as [|f l IH]; cbn [flat_map];
      [cbn; lia |].
    rewrite length_app. unfold batch_entry at 1.
    destruct (process_resume _ _ _); cbn [List.length]; lia.
  - intros other Ho before after.
    rewrite !monitor_input_folder_flat_map, !filter_app. cbn [filter].
    now rewrite Ho.
  - intro E. rewrite monitor_input_folder_flat_map, E. reflexivity.
Qed.

Lemma only_pdf_files_processed_witness :
  is_pdf "notes.txt" = false
  /\ monitor_input_folder (sample_store "cook") (["A.PDF"] ++ "notes.txt" :: [])
       ["cook"] =
     monitor_input_folder (sample_store "cook") (["A.PDF"] ++ []) ["cook"].
Proof.
  assert (H : is_pdf "notes.txt" = false) by reflexivity.
  split; [exact H |].
  exact (proj1 (proj2 (proj2
           (only_pdf_files_processed (sample_store "cook") [] ["cook"])))
           "notes.txt" H ["A.PDF"] []).
Defined.

Lemma fold_append_acc (pages : list string) :
  forall acc, fold_left (fun text page => text ++ page) pages acc =
              acc ++ fold_left (fun text page => text ++ page) pages "".
Proof.
  induction pages as [|p ps IH]; intro acc; cbn [fold_left].
  - induction acc as [|x acc IHa]; cbn; [reflexivity | now rewrite <- IHa].
  - rewrite (IH (acc ++ p)), (IH ("" ++ p)). cbn [append].
    apply append_assoc_string.
Qed.

(** X13. The extracted text is the texts of the pages one after the
    other; it is empty, and the document is skipped, exactly when the
    extraction raised or every page has empty text. *)
Theorem extract_text_empty_iff (fs : pdf_store) (pdf_path : string) :
  (forall pages, fs pdf_path = Pages pages ->
     extract_text_from_pdf fs pdf_path = String.concat "" pages)
  /\ (extract_text_from_pdf fs pdf_path = "" <->
      fs pdf_path = Raises
      \/ exists pages, fs pdf_path = Pages pages
           /\ Forall (fun page => page = "") pages).
Proof.
  assert (Hcat : forall pages,
    fold_left (fun text page => text ++ page) pages "" =
    String.concat "" pages).
  { induction pages as [|p ps IH]; [reflexivity |].
    cbn [fold_left]. rewrite fold_append_acc, IH. cbn [append].
    destruct ps as [|q ps]; cbn [String.concat fold_left].
    - induction p as [|x p IHp]; cbn; [reflexivity | now rewrite IHp].
    - reflexivity. }
  assert (Hempty : forall pages,
    fold_left (fun text page => text ++ page) pages "" = "" <->
    Forall (fun page => page = "") pages).
  { induction pages as [|p ps IH]; [split; auto |].
    cbn [fold_left]. rewrite fold_append_acc. cbn [append]. split.
    - intro H. destruct p as [|x p]; [| discriminate].
      constructor; [reflexivity |]. now apply IH.
    - intro H. inversion H as [|? ? -> Hps]. now apply IH. }
  unfold extract_text_from_pdf. split.
  - intros pages ->. apply Hcat.
  - destruct (fs pdf_path) as [pages |].
    + rewrite Hempty. split.
      * intro H. right. now exists pages.
      * intros [H | (pages' & E & H)]; [discriminate |].
        now injection E as ->.
    + split; [now left | reflexivity].
Qed.

End BatchFiles.

Section BatchFilesInstances.

Lemma extract_text_empty_iff_witness :
  sample_store "" "./input_cv/e.pdf" = Pages [""]
  /\ extract_text_from_pdf (sample_store "") "./input_cv/e.pdf" =
     String.concat "" [""].
Proof.
  assert (H : sample_store "" "./input_cv/e.pdf" = Pages [""])
    by reflexivity.
  split; [exact H |].
  exact (proj1 (extract_text_empty_iff (sample_store "") "./input_cv/e.pdf")
           [""] H).
Defined.

End BatchFilesInstances.

(* ------------------------------------------------------------------ *)
(** ** Contact extraction *)

Section Contact.

Lemma take_app_length (w rest : string) :
  take (String.length w) (w ++ rest) = w.
Proof. induction w as [|c w IH]; cbn; [now destruct rest | now rewrite IH]. Qed.

Lemma take_prefix (n : nat) (s : string) : exists post, s = take n s ++ post.
Proof.
  revert s. induction n as [|n IH]; intros [|c s]; cbn; eauto.
  destruct (IH s) as [post E]. exists post. now rewrite <- E.
Qed.

(** What [re.search] returns is a part of the text. *)
Lemma search_from_part (r : regex) (s : string) :
  forall prev g, search_from r prev s = Some g ->
    exists before after, s = before ++ g ++ after.
Proof.
  induction s as [|c s IH]; intros prev g H; cbn [search_from] in H.
  - destruct (match_here r prev "") as [n|]; [| discriminate].
    injection H as <-. destruct (take_prefix n "") as [post E].
    now exists "", post.
  - destruct (match_here r prev (String c s)) as [n|].
    + injection H as <-. destruct (take_prefix n (String c s)) as [post E].
      now exists "", post.
    + destruct (IH _ _ H) as (b & a & ->). now exists (String c b), a.
Qed.

Lemma group0_part (r : regex) (text : string) :
  contains (group0_or_empty (search r text)) text = true.
Proof.
  apply contains_spec. unfold search.
  destruct (search_from r None text) as [g|] eqn:E; cbn [group0_or_empty].
  - now apply search_from_part in E.
  - now exists "", text.
Qed.

Lemma split_ws_go_tokens (s : string) :
  forall cur,
    match cur with Some w => is_token w | None => True end ->
    Forall is_token (split_ws_go cur s).
Proof.
  induction s as [|c s IH]; intros cur Hcur; cbn [split_ws_go].
  - destruct cur; [constructor; [exact Hcur | constructor] | constructor].
  - destruct (is_space c) eqn:Hc.
    + destruct cur as [w|]; [constructor; [exact Hcur |] |]; now apply IH.
    + destruct cur as [w|]; apply IH.
      * destruct Hcur as [Hne Hns]. split.
        -- destruct w; discriminate.
        -- clear Hne. induction w as [|x w IHw]; cbn in *.
           ++ now rewrite Hc.
           ++ apply andb_true_iff in Hns as [-> Hw]. cbn. now apply IHw.
      * split; [discriminate |]. cbn. now rewrite Hc.
Qed.

Lemma firstn_Forall {A : Type} (P : A -> Prop) (n : nat) (l : list A) :
  Forall P l -> Forall P (firstn n l).
Proof.
  intro H. revert n. induction H as [|x l Hx _ IH]; intros [|n]; cbn;
    constructor; auto.
Qed.

Lemma name_loop_tokens (lines : list string) :
  exists tokens,
    name_loop lines = join " " tokens
    /\ List.length tokens <= 3
    /\ Forall is_token tokens.
Proof.
  induction lines as [|line rest IH]; cbn [name_loop].
  - exists []. repeat split; [cbn; lia | constructor].
  - destruct (_ && _ && _)%bool; [| exact IH].
    exists (firstn 3 (split_ws (strip line))). repeat split.
    + apply firstn_le_length.
    + apply firstn_Forall. unfold split_ws. now apply split_ws_go_tokens.
Qed.

(** X14. The contact fields come from the text: the email and the phone
    each occur in the text as they are returned (or are empty), and the
    name is at most three words, each without white space, joined by
    single spaces. *)
Theorem extract_contact_info_parts (text : string) :
  let '(name, email, phone) := extract_contact_info text in
  contains email text = true
  /\ contains phone text = true
  /\ exists tokens,
       name = join " " tokens
       /\ List.length tokens <= 3
       /\ Forall is_token tokens.
Proof.
  unfold extract_contact_info. cbv zeta.
  repeat split; try apply group0_part. apply name_loop_tokens.
Qed.

End Contact.

(* ------------------------------------------------------------------ *)
(** ** What a successful match is *)

Section MatcherSound.

Lemma string_app_assoc (a b c : string) : (a ++ b) ++ c = a ++ b ++ c.
Proof. induction a as [|x a IH]; cbn; [reflexivity | now rewrite IH]. Qed.

Lemma string_app_length (a b : string) :
  String.length (a ++ b) = String.length a + String.length b.
Proof. induction a as [|x a IH]; cbn; [reflexivity | now rewrite IH]. Qed.

Lemma last_char_app (w1 w2 : string) :
  forall prev, last_char prev (w1 ++ w2) = last_char (last_char prev w1) w2.
Proof. induction w1 as [|c w1 IH]; intro prev; cbn; [reflexivity | apply IH]. Qed.

Lemma first_some_inv (a b : option nat) (m : nat) :
  first_some a b = Some m -> a = Some m \/ b = Some m.
Proof. destruct a; cbn; auto. Qed.

Lemma rep_greedy_sound (p : ascii -> bool) (k : cont) (m : nat) :
  forall s lo hi prev n,
    rep_greedy p lo hi prev s n k = Some m ->
    exists w rest,
      s = w ++ rest
      /\ lang (Rep p lo hi) prev w rest
      /\ k (last_char prev w) rest (n + String.length w) = Some m.
Proof.
  assert (Hstop : forall lo hi prev s n,
    match lo with 0 => k prev s n | S _ => None end = Some m ->
    exists w rest,
      s = w ++ rest
      /\ lang (Rep p lo hi) prev w rest
      /\ k (last_char prev w) rest (n + String.length w) = Some m).
  { intros lo hi prev s n H. destruct lo; [| discriminate].
    exists "", s. cbn. rewrite Nat.add_0_r.
    repeat split; auto. destruct hi; lia. }
  assert (Hmore : forall c s lo hi prev n,
    p c = true ->
    (exists w rest,
       s = w ++ rest
       /\ lang (Rep p (Nat.pred lo) (option_map Nat.pred hi)) (Some c) w rest
       /\ k (last_char (Some c) w) rest (S n + String.length w) = Some m) ->
    match hi with Some 0 => False | _ => True end ->
    exists w rest,
      String c s = w ++ rest
      /\ lang (Rep p lo hi) prev w rest
      /\ k (last_char prev w) rest (n + String.length w) = Some m).
  { intros c s lo hi prev n Hc (w & rest & -> & (Hall & Hlo & Hhi) & Hk) Hh.
    exists (String c w), rest. cbn [append lang all_in last_char String.length].
    rewrite Hc, Hall. replace (n + S (String.length w))
      with (S n + String.length w) by lia.
    repeat split; auto; [lia |].
    destruct hi as [[|h]|]; cbn in *; [contradiction | lia | exact I]. }
  induction s as [|c s IH]; intros lo hi prev n H; cbn [rep_greedy] in H.
  - apply Hstop. now destruct hi as [[|h]|].
  - destruct hi as [[|h]|].
    + now apply Hstop.
    + destruct (p c) eqn:Hc; [| now apply Hstop].
      apply first_some_inv in H as [H | H]; [| now apply Hstop].
      apply (Hmore c s lo (Some (S h)) prev n Hc); [| exact I].
      now apply IH.
    + destruct (p c) eqn:Hc; [| now apply Hstop].
      apply first_some_inv in H as [H | H]; [| now apply Hstop].
      apply (Hmore c s lo None prev n Hc); [| exact I].
      now apply IH.
Qed.

(** The matcher is sound: when it succeeds, the text it consumed is a
    match of the pattern and the continuation succeeded after it. *)
Lemma run_sound (r : regex) :
  forall prev s n k m,
    run r prev s n k = Some m ->
    exists w rest,
      s = w ++ rest
      /\ lang r prev w rest
      /\ k (last_char prev w) rest (n + String.length w) = Some m.
Proof.
  induction r as [| p | r1 IH1 r2 IH2 | r1 IH1 r2 IH2 | p lo hi |];
    intros prev s n k m H; cbn [run] in H.
  - exists "", s. cbn. now rewrite Nat.add_0_r.
  - destruct s as [|c s]; [discriminate |].
    destruct (p c) eqn:Hc; [| discriminate].
    exists (String c ""), s. cbn. rewrite Nat.add_1_r. eauto.
  - apply IH1 in H as (w1 & rest1 & -> & L1 & H).
    apply IH2 in H as (w2 & rest & -> & L2 & H).
    exists (w1 ++ w2), rest. rewrite string_app_assoc.
    split; [reflexivity |]. split.
    + cbn [lang]. now exists w1, w2.
    + now rewrite last_char_app, string_app_length, Nat.add_assoc.
  - apply first_some_inv in H as [H | H].
    + apply IH1 in H as (w & rest & -> & L & H). exists w, rest.
      cbn [lang]. auto.
    + apply IH2 in H as (w & rest & -> & L & H). exists w, rest.
      cbn [lang]. auto.
  - now apply rep_greedy_sound.
  - destruct (xorb _ _) eqn:E; [| discriminate].
    exists "", s. cbn. now rewrite Nat.add_0_r.
Qed.

(** What [re.search] returns is a match of the pattern. *)
Lemma search_from_sound (r : regex) (s : string) :
  forall prev g, search_from r prev s = Some g ->
    exists prev' rest, lang r prev' g rest.
Proof.
  assert (Hhere : forall prev t n, match_here r prev t = Some n ->
    exists rest, lang r prev (take n t) rest).
  { intros prev t n H. unfold match_here in H.
    apply run_sound in H as (w & rest & -> & L & H).
    injection H as <-. cbn [Nat.add]. rewrite take_app_length. eauto. }
  induction s as [|c s IH]; intros prev g H; cbn [search_from] in H.
  - destruct (match_here r prev "") as [n|] eqn:E; [| discriminate].
    injection H as <-. apply Hhere in E as [rest L]. eauto.
  - destruct (match_here r prev (String c s)) as [n|] eqn:E.
    + injection H as <-. apply Hhere in E as [rest L]. eauto.
    + eauto.
Qed.

End MatcherSound.

(* ------------------------------------------------------------------ *)
(** ** The shape of the extracted email and phone *)

Section ContactShape.

Lemma no_space_app (a b : string) :
  no_space (a ++ b) = no_space a && no_space b.
Proof.
  induction a as [|c a IH]; cbn; [reflexivity |].
  now rewrite IH, andb_assoc.
Qed.

Lemma all_in_no_space (p : ascii -> bool) (w : string) :
  (forall c, p c = true -> is_space c = false) ->
  all_in p w = true -> no_space w = true.
Proof.
  intro Hp. induction w as [|c w IH]; cbn; [reflexivity |].
  intro H. apply andb_true_iff in H as [Hc Hw].
  now rewrite (Hp c Hc), IH.
Qed.

Lemma email_classes_no_space (c : ascii) :
  (email_local c = true -> is_space c = false)
  /\ (email_domain c = true -> is_space c = false)
  /\ (email_tld c = true -> is_space c = false).
Proof.
  destruct c as [[] [] [] [] [] [] [] []]; vm_compute;
    repeat split; intros; first [reflexivity | discriminate].
Qed.

Lemma nonempty_length (w : string) : 1 <= String.length w -> w <> "".
Proof. destruct w; cbn; [lia | discriminate]. Qed.

(** X15. An extracted email has the shape the pattern asks for: a local
    part, an at sign, a domain, a dot and a final part of at least two
    letters (or bars), each over its own alphabet; it holds no white
    space. *)
Theorem extracted_email_shape (text : string) :
  let email := snd (fst (extract_contact_info text)) in
  email = ""
  \/ exists local_part domain tld,
       email = local_part ++ "@" ++ domain ++ "." ++ tld
       /\ local_part <> "" /\ all_in email_local local_part = true
       /\ domain <> "" /\ all_in email_domain domain = true
       /\ 2 <= String.length tld /\ all_in email_tld tld = true
       /\ no_space email = true.
Proof.
  unfold extract_contact_info. cbv zeta. cbn [fst snd]. unfold search.
  destruct (search_from email_pattern None text) as [g|] eqn:E;
    cbn [group0_or_empty]; [right | now left].
  apply search_from_sound in E as (prev & rest & L).
  unfold email_pattern in L. cbn [seqs lang lit] in L.
  destruct L as (w0 & w1 & -> & (-> & _) & l & w2 & -> & (Hl & Hl1 & _)
    & a & w3 & -> & (ca & -> & Ha) & d & w4 & -> & (Hd & Hd1 & _)
    & o & w5 & -> & (co & -> & Ho) & t & w6 & -> & (Ht & Ht2 & _)
    & -> & _).
  apply Ascii.eqb_eq in Ha, Ho. subst ca co.
  exists l, d, t. cbn [append].
  assert (Ecat : forall x, x ++ "" = x)
    by (induction x as [|c x IHx]; cbn; [reflexivity | now rewrite IHx]).
  rewrite Ecat.
  repeat split; auto using nonempty_length.
  assert (Nl : no_space l = true)
    by (apply (all_in_no_space email_local); [| exact Hl];
        intros c Hc; exact (proj1 (email_classes_no_space c) Hc)).
  assert (Nd : no_space d = true)
    by (apply (all_in_no_space email_domain); [| exact Hd];
        intros c Hc; exact (proj1 (proj2 (email_classes_no_space c)) Hc)).
  assert (Nt : no_space t = true)
    by (apply (all_in_no_space email_tld); [| exact Ht];
        intros c Hc; exact (proj2 (proj2 (email_classes_no_space c)) Hc)).
  rewrite no_space_app, Nl. cbn [no_space andb].
  rewrite no_space_app, Nd. cbn [no_space andb]. rewrite Nt. reflexivity.
Qed.

(** X16. An extracted phone has the shape the pattern asks for: an
    optional country code (a plus sign, one to three digits and at most one
    separator), an optional opening bracket, three digits, an optional
    closing bracket, at most one separator, three digits, at most one
    separator and four digits; so it has between 10 and 19 characters. *)
Theorem extracted_phone_shape (text : string) :
  let phone := snd (extract_contact_info text) in
  phone = ""
  \/ exists country opening area closing sep1 mid sep2 last4,
       phone = country ++ opening ++ area ++ closing ++ sep1 ++ mid
               ++ sep2 ++ last4
       /\ (country = ""
           \/ exists code sep0,
                country = "+" ++ code ++ sep0
                /\ all_in is_digit code = true
                /\ 1 <= String.length code <= 3
                /\ all_in phone_sep sep0 = true
                /\ String.length sep0 <= 1)
       /\ all_in (Ascii.eqb "(") opening = true
       /\ String.length opening <= 1
       /\ all_in is_digit area = true /\ String.length area = 3
       /\ all_in (Ascii.eqb ")") closing = true
       /\ String.length closing <= 1
       /\ all_in phone_sep sep1 = true /\ String.length sep1 <= 1
       /\ all_in is_digit mid = true /\ String.length mid = 3
       /\ all_in phone_sep sep2 = true /\ String.length sep2 <= 1
       /\ all_in is_digit last4 = true /\ String.length last4 = 4
       /\ 10 <= String.length phone <= 19.
Proof.
  unfold extract_contact_info. cbv zeta. cbn [snd]. unfold search.
  destruct (search_from phone_pattern None text) as [g|] eqn:E;
    cbn [group0_or_empty]; [right | now left].
  apply search_from_sound in E as (prev & rest & L).
  unfold phone_pattern, opt in L. cbn [seqs lang lit] in L.
  destruct L as (w0 & w1 & -> & (-> & _) & cc & w2 & -> & Hcc
    & o & w3 & -> & (Ho & _ & Ho1) & a & w4 & -> & (Ha & Ha3 & Ha3')
    & c & w5 & -> & (Hc & _ & Hc1) & s1 & w6 & -> & (Hs1 & _ & Hs11)
    & b & w7 & -> & (Hb & Hb3 & Hb3') & s2 & w8 & -> & (Hs2 & _ & Hs21)
    & d & w9 & -> & (Hd & Hd4 & Hd4') & -> & _).
  assert (Ecat : forall x, x ++ "" = x)
    by (induction x as [|y x IHx]; cbn; [reflexivity | now rewrite IHx]).
  rewrite Ecat. cbn [append].
  assert (Hcountry : (cc = ""
           \/ exists code sep0,
                cc = "+" ++ code ++ sep0
                /\ all_in is_digit code = true
                /\ 1 <= String.length code <= 3
                /\ all_in phone_sep sep0 = true
                /\ String.length sep0 <= 1)).
  { destruct Hcc as [(p & w & -> & (cp & -> & Hp) & n & s & -> &
      (Hn & Hn1 & Hn3) & (Hs & _ & Hs0)) | ->]; [right | now left].
    apply Ascii.eqb_eq in Hp. subst cp. exists n, s.
    repeat split; auto. }
  exists cc, o, a, c, s1, b, s2, d.
  repeat split; auto; try lia.
  - rewrite !string_app_length. lia.
  - rewrite !string_app_length.
    assert (String.length cc <= 5).
    { destruct Hcountry as [-> | (n & s & -> & _ & Hn & _ & Hs)];
        [cbn; lia |].
      cbn [append String.length]. rewrite string_app_length. lia. }
    lia.
Qed.

End ContactShape.

(* ------------------------------------------------------------------ *)
(** ** The whole run *)

Section WholeRun.

Lemma in_monitor_input_folder (fs : pdf_store) (listing : list string)
  (keywords : list string) (r : ResumeRecord) :
  In r (monitor_input_folder fs listing keywords) <->
  exists f, In f listing /\ is_pdf f = true
    /\ process_resume fs (INPUT_DIR ++ f) keywords = Some r.
Proof.
  rewrite monitor_input_folder_flat_map, in_flat_map. split.
  - intros (f & Hf & Hr). apply filter_In in Hf as [Hf Hp].
    exists f. repeat split; auto. unfold batch_entry in Hr.
    destruct (process_resume _ _ _); [| destruct Hr].
    destruct Hr as [-> | []]. reflexivity.
  - intros (f & Hf & Hp & E). exists f. split; [now apply filter_In |].
    unfold batch_entry. rewrite E. now left.
Qed.

(** The batch is empty exactly when no listed PDF document has text. *)
Lemma empty_batch_iff (fs : pdf_store) (listing : list string)
  (keywords : list string) :
  monitor_input_folder fs listing keywords = [] <->
  forall f, In f listing -> is_pdf f = true ->
    extract_text_from_pdf fs (INPUT_DIR ++ f) = "".
Proof.
  pose proof (in_monitor_input_folder fs listing keywords) as Hin.
  destruct (monitor_input_folder fs listing keywords) as [|r rs] eqn:E.
  - split; [| reflexivity]. intros _ f Hf Hp.
    destruct (process_resume fs (INPUT_DIR ++ f) keywords) as [d|] eqn:Ed.
    + exfalso. apply (proj2 (Hin d)). now exists f.
    + now apply process_resume_none in Ed.
  - split; [discriminate |]. intro Hall. exfalso.
    destruct (proj1 (Hin r) (or_introl eq_refl)) as (f & Hf & Hp & Ef).
    specialize (Hall f Hf Hp).
    apply (proj2 (process_resume_none fs _ keywords)) in Hall. congruence.
Qed.

(** X17. The run returns without output exactly when no listed PDF
    document has text.  When it returns the classified frame, every listed
    PDF document with text has at least one classified row, which carries
    its file name, and every classified row comes from such a document.
    With a document that has text, the run returns the frame when the
    survey is absent, has no rows or has an email column that holds text,
    and it raises when the survey has rows but no email cell that is
    text. *)
Theorem main_covers_readable_documents
  (keywords_file : option (list string)) (fs : pdf_store)
  (listing : list string) (survey_df : option SurveyFrame) :
  (main keywords_file fs listing survey_df = Returns None <->
     forall f, In f listing -> is_pdf f = true ->
       extract_text_from_pdf fs (INPUT_DIR ++ f) = "")
  /\ (forall out,
      main keywords_file fs listing survey_df = Returns (Some out) ->
      (forall f, In f listing -> is_pdf f = true -> no_slash f = true ->
         extract_text_from_pdf fs (INPUT_DIR ++ f) <> "" ->
         exists c, In c out /\ file_name (resume (merged c)) = f)
      /\ (forall c, In c out ->
            exists f, In f listing /\ is_pdf f = true
              /\ extract_text_from_pdf fs (INPUT_DIR ++ f) <> ""
              /\ process_resume fs (INPUT_DIR ++ f)
                   (load_keywords keywords_file)
                 = Some (resume (merged c))))
  /\ (forall f, In f listing -> is_pdf f = true ->
      extract_text_from_pdf fs (INPUT_DIR ++ f) <> "" ->
      (no_survey survey_df = true
       \/ exists survey, survey_df = Some survey
            /\ email_is_text survey = true) ->
      exists out,
        main keywords_file fs listing survey_df = Returns (Some out))
  /\ (forall f survey, In f listing -> is_pdf f = true ->
      extract_text_from_pdf fs (INPUT_DIR ++ f) <> "" ->
      survey_df = Some survey -> frame_empty survey = false ->
      email_is_text survey = false ->
      main keywords_file fs listing survey_df = RaisesError).
Proof.
  unfold main. cbv zeta.
  set (keywords := load_keywords keywords_file).
  pose proof (in_monitor_input_folder fs listing keywords) as Hin.
  pose proof (empty_batch_iff fs listing keywords) as Hempty.
  assert (Hne : forall f, In f listing -> is_pdf f = true ->
    extract_text_from_pdf fs (INPUT_DIR ++ f) <> "" ->
    monitor_input_folder fs listing keywords <> []).
  { intros f Hf Hp Ht E. apply Ht. now apply (proj1 Hempty E). }
  split; [| split; [| split]].
  - destruct (monitor_input_folder fs listing keywords) as [|r rs] eqn:E.
    + split; [intros _; exact (proj1 Hempty eq_refl) | reflexivity].
    + split.
      * destruct (classify_candidates (r :: rs) survey_df); discriminate.
      * intro Hall. apply (proj2 Hempty) in Hall. discriminate.
  - intros out Hout.
    assert (Eout : classify_candidates
                     (monitor_input_folder fs listing keywords) survey_df
                   = Returns out).
    { destruct (monitor_input_folder fs listing keywords);
        [discriminate |].
      destruct (classify_candidates _ survey_df);
        [now injection Hout as -> | discriminate]. }
    split.
    + intros f Hf Hp Hns Htext.
      destruct (process_resume fs (INPUT_DIR ++ f) keywords) as [d|] eqn:Ed.
      * assert (Hd : In d (monitor_input_folder fs listing keywords))
          by (apply Hin; now exists f).
        unfold classify_candidates in Eout.
        destruct (merged_df _ survey_df) as [rows|] eqn:Em;
          [| discriminate].
        injection Eout as <-.
        assert (Hrow : exists row, In row rows /\ resume row = d).
        { destruct (merged_df_returns _ _ _ Em)
            as [[_ ->] | (survey & _ & _ & ->)].
          - exists (unknown_row d). split; [now apply in_map | reflexivity].
          - now apply merge_left_covers. }
        destruct Hrow as (row & Hrow & Er). eexists. split.
        -- apply in_map. exact Hrow.
        -- cbn [merged]. rewrite Er.
           now apply (file_name_record fs keywords f d).
      * apply process_resume_none in Ed. contradiction.
    + intros c Hc. apply (classified_from_batch _ _ _ _ Eout) in Hc.
      apply Hin in Hc as (f & Hf & Hp & E). exists f.
      repeat split; auto. intro Hnone.
      apply (proj2 (process_resume_none fs _ keywords)) in Hnone.
      congruence.
  - intros f Hf Hp Ht Hsurvey. specialize (Hne f Hf Hp Ht).
    destruct (monitor_input_folder fs listing keywords) as [|r rs] eqn:E;
      [congruence |].
    assert (Em : exists rows, merged_df (r :: rs) survey_df = Returns rows).
    { destruct (merged_df_cases (r :: rs) survey_df)
        as [[Hno Em] | (survey & Es & Hno & Em)]; [eauto |].
      destruct Hsurvey as [Hno' | (survey' & Es' & Htext)]; [congruence |].
      rewrite Es in Es'. injection Es' as <-.
      rewrite Em, (merge_left_text _ _ Htext). eauto. }
    destruct Em as (rows & Em).
    destruct (classify_candidates_returns _ _ _ Em) as (out & -> & _).
    eauto.
  - intros f survey Hf Hp Ht -> Hrows Hnum. specialize (Hne f Hf Hp Ht).
    destruct (monitor_input_folder fs listing keywords) as [|r rs] eqn:E;
      [congruence |].
    unfold classify_candidates. cbn [merged_df]. rewrite Hrows.
    cbn [negb]. rewrite (merge_left_numeric (r :: rs) survey);
      [reflexivity | discriminate | exact Hrows | exact Hnum].
Qed.

End WholeRun.

Section WholeRunInstances.

Lemma main_covers_readable_documents_witness :
  In "ann.pdf" ["ann.pdf"]
  /\ main None (sample_store "a@x.com cook and cashier") ["ann.pdf"]
       (Some sample_survey_blank_email) = RaisesError
  /\ exists out,
       main None (sample_store "a@x.com cook and cashier") ["ann.pdf"]
         (Some sample_survey_twice) = Returns (Some out).
Proof.
  assert (Hin : In "ann.pdf" ["ann.pdf"]) by (left; reflexivity).
  assert (Ht : extract_text_from_pdf
                 (sample_store "a@x.com cook and cashier")
                 (INPUT_DIR ++ "ann.pdf") <> "") by discriminate.
  split; [exact Hin |]. split.
  - exact (proj2 (proj2 (proj2 (main_covers_readable_documents None
             (sample_store "a@x.com cook and cashier") ["ann.pdf"]
             (Some sample_survey_blank_email))))
             "ann.pdf" sample_survey_blank_email Hin eq_refl Ht eq_refl
             eq_refl eq_refl).
  - exact (proj1 (proj2 (proj2 (main_covers_readable_documents None
             (sample_store "a@x.com cook and cashier") ["ann.pdf"]
             (Some sample_survey_twice))))
             "ann.pdf" Hin eq_refl Ht
             (or_intror (ex_intro _ sample_survey_twice
                           (conj eq_refl eq_refl)))).
Defined.

End WholeRunInstances.

(* ------------------------------------------------------------------ *)
(** ** Texts without sections *)

Section NoSections.

Lemma section_needs_newline (prev : option ascii) (s : string) :
  match s with
  | String c _ => Ascii.eqb newline c = false
  | EmptyString => True
  end ->
  match_here section_pattern prev s = None.
Proof.
  intro H. unfold match_here, section_pattern. cbn [seqs run lit].
  destruct s as [|c s]; [reflexivity |]. now rewrite H.
Qed.

Lemma split_no_newline (s : string) :
  no_newline s = true ->
  forall prev seg, split_from section_pattern prev s 0 seg = [seg ++ s].
Proof.
  induction s as [|c s IH]; intros Hs prev seg; cbn [split_from].
  - f_equal. induction seg as [|x seg IHs]; cbn; [reflexivity |].
    now rewrite <- IHs.
  - cbn [no_newline] in Hs. apply andb_true_iff in Hs as [Hc Hs].
    apply negb_true_iff in Hc.
    rewrite (section_needs_newline prev (String c s) Hc).
    rewrite (IH Hs). f_equal.
    induction seg as [|x seg IHs]; cbn; [reflexivity | now rewrite IHs].
Qed.

(** X18. A section header is recognised only at the start of a line
    after the first: a text without a line break is one segment, and both
    the experience and the skills text are empty, whatever the text
    says. *)
Theorem single_line_has_no_sections (text : string)
  (keywords : list string) :
  no_newline text = true ->
  split section_pattern text = [text]
  /\ extract_experience_and_skills text keywords = ("", "").
Proof.
  intro H.
  assert (E : split section_pattern text = [text])
    by (unfold split; now rewrite split_no_newline).
  split; [exact E |].
  unfold extract_experience_and_skills. cbv zeta. now rewrite E.
Qed.

Lemma single_line_has_no_sections_witness :
  no_newline "EXPERIENCE: cook SKILLS: grill" = true
  /\ extract_experience_and_skills "EXPERIENCE: cook SKILLS: grill" []
     = ("", "").
Proof.
  assert (H : no_newline "EXPERIENCE: cook SKILLS: grill" = true)
    by reflexivity.
  split; [exact H |].
  exact (proj2 (single_line_has_no_sections
                  "EXPERIENCE: cook SKILLS: grill" [] H)).
Defined.

End NoSections.

(* ------------------------------------------------------------------ *)
(** ** The keyword column *)

Section KeywordColumn.

Lemma app_empty_r (x : string) : x ++ "" = x.
Proof. induction x as [|c x IH]; cbn; [reflexivity | now rewrite IH]. Qed.

Lemma app_char_assoc (cur : string) (c : ascii) (t : string) :
  (cur ++ String c "") ++ t = cur ++ String c t.
Proof. induction cur as [|x cur IH]; cbn; [reflexivity | now rewrite IH]. Qed.

(** Inside a plain keyword, and across its end into a following ", ", no
    separator starts. *)
Lemma no_separator_inside (c : ascii) (t rest : string) :
  contains ", " (String c t) = false ->
  startswith ", " (String c (t ++ ", " ++ rest)) = false
  /\ startswith ", " (String c t) = false
  /\ contains ", " t = false.
Proof.
  intro H. cbn [contains] in H. apply orb_false_iff in H as [Hs Ht].
  repeat split; [| exact Hs | exact Ht].
  cbn [startswith] in *. destruct (Ascii.eqb "," c); [| reflexivity].
  cbn [andb] in *. destruct t as [|d t]; [reflexivity |].
  cbn [append]. destruct (Ascii.eqb " " d); [discriminate | reflexivity].
Qed.

Lemma split_str_go_last (t : string) :
  contains ", " t = false ->
  forall cur, split_str_go ", " t 0 cur = [cur ++ t].
Proof.
  induction t as [|c t IH]; intros H cur; cbn [split_str_go].
  - now rewrite app_empty_r.
  - destruct (no_separator_inside c t "" H) as (_ & Hs & Ht).
    rewrite Hs, (IH Ht). now rewrite app_char_assoc.
Qed.

Lemma split_str_go_piece (t rest : string) :
  contains ", " t = false ->
  forall cur,
    split_str_go ", " (t ++ ", " ++ rest) 0 cur =
      (cur ++ t) :: split_str_go ", " rest 0 "".
Proof.
  induction t as [|c t IH]; intros H cur.
  - cbn. now rewrite app_empty_r.
  - destruct (no_separator_inside c t rest H) as (Hs & _ & Ht).
    specialize (IH Ht (cur ++ String c "")).
    cbn [append] in Hs, IH. cbn [append split_str_go].
    rewrite Hs, IH. now rewrite app_char_assoc.
Qed.

Lemma split_join_plain (found : list string) :
  found <> [] ->
  Forall (fun k => contains ", " k = false) found ->
  split_str ", " (join ", " found) = found.
Proof.
  unfold split_str. induction found as [|k ks IH]; intros Hne Hall;
    [congruence |].
  inversion Hall as [|? ? Hk Hks]; subst.
  destruct ks as [|k' ks'].
  - cbn [join]. now rewrite split_str_go_last.
  - change (join ", " (k :: k' :: ks'))
      with (k ++ ", " ++ join ", " (k' :: ks')).
    rewrite (split_str_go_piece k _ Hk). cbn [append]. f_equal.
    apply IH; [discriminate | exact Hks].
Qed.

Lemma join_plain_nonempty (found : list string) :
  found <> [] -> Forall plain_keyword found -> join ", " found <> "".
Proof.
  intros Hne Hall. destruct found as [|k ks]; [congruence |].
  inversion Hall as [|? ? [Hk _] _]; subst.
  destruct k as [|c k]; [congruence |].
  destruct ks; cbn; discriminate.
Qed.

(** X19. The keyword column can be read back: when no keyword is empty
    or contains ", ", the keywords [visualize_results] reads from a
    record's [found_keywords] are exactly the matched keywords, in order,
    and there are [keyword_count] of them. *)
Theorem found_keywords_round_trip (fs : pdf_store) (pdf_path : string)
  (keywords : list string) (r : ResumeRecord) :
  Forall plain_keyword keywords ->
  process_resume fs pdf_path keywords = Some r ->
  keywords_of_cell (found_keywords r) =
    snd (count_relevant_keywords (extract_text_from_pdf fs pdf_path) keywords)
  /\ Z.of_nat (List.length (keywords_of_cell (found_keywords r)))
     = keyword_count r.
Proof.
  intros Hplain H.
  assert (Hf : found_keywords r = join ", "
    (snd (count_relevant_keywords (extract_text_from_pdf fs pdf_path)
            keywords))).
  { unfold process_resume in H. cbv zeta in H.
    destruct (is_empty _); [discriminate |].
    destruct (extract_contact_info _) as [[n e] ph].
    destruct (extract_experience_and_skills _ _) as [ex sk].
    destruct (count_relevant_keywords _ _) as [kc fk].
    now injection H as <-. }
  apply process_resume_some in H as (_ & _ & _ & Hk & _).
  rewrite Hk, Hf, count_relevant_keywords_filter. cbn [fst snd].
  set (found := filter _ keywords).
  assert (Hfound : Forall plain_keyword found).
  { apply Forall_forall. intros k Hin. apply filter_In in Hin as [Hin _].
    revert k Hin. now apply Forall_forall. }
  assert (E : keywords_of_cell (join ", " found) = found).
  { unfold keywords_of_cell. destruct found as [|k ks] eqn:Ef;
      [reflexivity |].
    destruct (is_empty (join ", " (k :: ks))) eqn:Ee.
    - apply is_empty_true in Ee. exfalso.
      now apply (join_plain_nonempty (k :: ks)).
    - apply split_join_plain; [discriminate |].
      apply Forall_forall. intros x Hx.
      now apply (proj1 (Forall_forall _ _) Hfound x Hx). }
  now rewrite E.
Qed.

Lemma found_keywords_round_trip_witness :
  exists r,
    Forall plain_keyword ["cook"; "fast food"; "cashier"]
    /\ process_resume (sample_store "Fast Food cook") "./input_cv/a.pdf"
         ["cook"; "fast food"; "cashier"] = Some r
    /\ keywords_of_cell (found_keywords r) = ["cook"; "fast food"].
Proof.
  assert (Hp : Forall plain_keyword ["cook"; "fast food"; "cashier"])
    by (repeat constructor; discriminate).
  eexists.
  refine ((fun H => conj Hp (conj H
             (proj1 (found_keywords_round_trip
                       (sample_store "Fast Food cook") "./input_cv/a.pdf"
                       ["cook"; "fast food"; "cashier"] _ Hp H)))) _).
  reflexivity.
Defined.

(** A keyword that contains the separator is not read back as written. *)
Lemma separator_in_keyword_splits :
  keywords_of_cell (join ", " ["salt, pepper"]) = ["salt"; "pepper"].
Proof. reflexivity. Qed.

End KeywordColumn.

(* ------------------------------------------------------------------ *)
(** ** The sample CV writer *)

Section Writer.

Import CvWriter.

Lemma content_loop_map (markup_ok : string -> bool) (lines : list string) :
  forall flowables,
    content_loop markup_ok lines flowables =
      if forallb markup_ok
           (filter (fun l => negb (is_empty l)) (map strip lines))
      then Returns (flowables ++ map line_flowable lines)%list
      else RaisesError.
Proof.
  induction lines as [|line rest IH]; intro flowables;
    cbn [content_loop map filter forallb]; [now rewrite app_nil_r |].
  unfold line_flowable at 1.
  destruct (is_empty (strip line)); cbn [negb forallb].
  - rewrite IH. destruct (forallb _ _); [| reflexivity].
    now rewrite <- app_assoc.
  - unfold make_paragraph.
    destruct (markup_ok (strip line)); cbn [andb]; [| reflexivity].
    rewrite IH. destruct (forallb _ _); [| reflexivity].
    destruct (_ && _)%bool; now rewrite <- app_assoc.
Qed.

Lemma split_char_nonempty (sep : ascii) (s : string) :
  split_char sep s <> [].
Proof.
  destruct s as [|c s]; cbn; [discriminate |].
  destruct (Ascii.eqb c sep); [discriminate |].
  destruct (split_char sep s); discriminate.
Qed.

Lemma paragraph_texts_lines (lines : list string) :
  paragraph_texts (map line_flowable lines) =
    filter (fun l => negb (is_empty l)) (map strip lines).
Proof.
  induction lines as [|line rest IH]; [reflexivity |].
  cbn [map filter]. unfold line_flowable at 1.
  destruct (is_empty (strip line)); cbn [negb];
    [| destruct (_ && _)%bool]; cbn [paragraph_texts]; now rewrite IH.
Qed.

(** X20. The writer loses no line, or writes nothing.  When reportlab
    accepts the first line and every later line that is not blank, the
    flowables are the first line as the title followed by a spacer, then
    one flowable per remaining line in order, a spacer for a blank line
    and a paragraph holding the stripped line otherwise; when it rejects
    one of them the call raises.  So the flowables are one more than the
    lines, the paragraph texts are the first line and the stripped lines
    after it that are not blank, and a paragraph is a section heading
    exactly when its line is in upper case and longer than three
    characters. *)
Theorem create_pdf_keeps_every_line (markup_ok : string -> bool)
  (content : string) :
  let lines := split_char newline content in
  let flowables :=
    Paragraph (hd "" lines) title_style :: Spacer 1 12
      :: map line_flowable (tl lines) in
  create_pdf_from_content markup_ok content =
    (if forallb markup_ok (texts_of lines)
     then Returns flowables else RaisesError)
  /\ List.length flowables = List.length lines + 1
  /\ paragraph_texts flowables = texts_of lines
  /\ (forall text, In (Paragraph text section_style) flowables <->
        exists line, In line (tl lines) /\ text = strip line
          /\ isupper text = true /\ 3 < String.length text).
Proof.
  cbv zeta. unfold create_pdf_from_content, texts_of. cbv zeta.
  pose proof (split_char_nonempty newline content) as Hne.
  destruct (split_char newline content) as [|first rest]; [congruence |].
  cbn [hd tl forallb]. split; [| split; [| split]].
  - unfold make_paragraph. destruct (markup_ok first); cbn [andb];
      [| reflexivity].
    rewrite content_loop_map. now destruct (forallb _ _).
  - cbn [List.length]. rewrite length_map. lia.
  - cbn [paragraph_texts]. now rewrite paragraph_texts_lines.
  - intro text. cbn [In]. split.
    + intros [H | [H | H]]; [discriminate | discriminate |].
      apply in_map_iff in H as (line & E & Hin). exists line.
      unfold line_flowable in E.
      destruct (is_empty (strip line)); [discriminate |].
      destruct (isupper (strip line)) eqn:Eu; cbn [andb] in E;
        [| discriminate].
      destruct (Nat.ltb_spec 3 (String.length (strip line)));
        [| discriminate].
      injection E as <-. auto.
    + intros (line & Hin & -> & Hu & Hl). right. right.
      apply in_map_iff. exists line. split; [| exact Hin].
      unfold line_flowable. rewrite Hu.
      destruct (strip line) as [|c t] eqn:E; [cbn in Hl; lia |].
      cbn [is_empty andb].
      destruct (Nat.ltb_spec 3 (String.length (String c t)));
        [reflexivity | lia].
Qed.

End Writer.

(* ------------------------------------------------------------------ *)
(** ** Records without survey answers *)

Section Unmatched.

Local Open Scope Z_scope.

(** X21. A record without survey answers is scored in two ways.  When the
    survey has rows but none with the record's email, the survey fields
    are missing and the score is that of the record alone; when there is
    no survey at all, the same record gets one point more, for the
    "Unknown" availability. *)
Theorem unmatched_scores_record_alone (resumes_df : list ResumeRecord)
  (survey : SurveyFrame) (out : list ClassifiedCandidate)
  (c : ClassifiedCandidate) :
  frame_empty survey = false ->
  classify_candidates resumes_df (Some survey) = Returns out ->
  In c out ->
  unmatched (resume (merged c)) survey = true ->
  priority_score c =
    relevance_points (resume (merged c)) + keyword_points (resume (merged c))
  /\ (forall out' c',
        classify_candidates resumes_df None = Returns out' ->
        In c' out' ->
        resume (merged c') = resume (merged c) ->
        priority_score c' = priority_score c + 1).
Proof.
  intros Hne Hout Hc Hun.
  destruct (in_classify_candidates _ _ _ _ Hout Hc)
    as (rows & Em & Hrow & Hs & _).
  destruct (merged_df_returns _ _ _ Em)
    as [[Hno _] | (survey' & Es & _ & ->)];
    [cbn [no_survey] in Hno; congruence |].
  injection Es as <-.
  apply merge_left_rows in Hrow as [_ Hcells].
  destruct (Hcells Hun) as (Ha & Hco & Hv).
  assert (E : priority_score c =
    relevance_points (resume (merged c))
    + keyword_points (resume (merged c))).
  { rewrite Hs, calculate_priority_sum, Ha, Hco, Hv. unfold survey_cell.
    destruct (has_availability survey), (has_courses survey),
      (has_visa survey); cbn; lia. }
  split; [exact E |]. intros out' c' Hout' Hc' Er.
  destruct (in_classify_candidates _ _ _ _ Hout' Hc')
    as (rows' & Em' & Hrow' & Hs' & _).
  cbn [merged_df] in Em'. injection Em' as <-.
  apply unknown_rows in Hrow' as (_ & Ha' & Hc'' & Hv').
  rewrite Hs', calculate_priority_sum, Ha', Hc'', Hv', Er, E.
  change (availability_points (Val "Unknown")) with 1.
  change (courses_points (Val "Unknown")) with 0.
  change (visa_points (Val "Unknown")) with 0. lia.
Qed.

Lemma unmatched_scores_record_alone_witness :
  exists out c,
    classify_candidates [sample_resume] (Some sample_survey) = Returns out
    /\ In c out
    /\ priority_score c =
       relevance_points (resume (merged c))
       + keyword_points (resume (merged c)).
Proof.
  eexists. eexists.
  split; [reflexivity |].
  split; [cbn; left; reflexivity |].
  apply (unmatched_scores_record_alone [sample_resume] sample_survey
           _ _ eq_refl eq_refl).
  - cbn. left. reflexivity.
  - reflexivity.
Defined.

End Unmatched.
